(** * Combo box selection state and drop-down placement

    A shallow embedding of [ComboBoxBase] from
    [qfluentwidgets/components/widgets/combo_box.py]: the item list with its
    current index, the signals it emits, and the choice between a drop-down
    and a pull-up menu in [_showComboMenu].

    Python integers are unbounded, so indices and pixel sizes are [Z].
    A method of the widget is a function from the widget to a result, the
    widget afterwards and the events produced on the way, in the order in
    which the method produces them. *)

From Stdlib Require Import ZArith List String Bool Lia.
Import ListNotations.

Local Open Scope Z_scope.

(** ** Python list operations used by the widget *)

Module PyList.
Section Ops.
Context {A : Type}.

Definition len (l : list A) : Z := Z.of_nat (List.length l).

(** The guard [0 <= index < len(l)] that precedes every subscript. *)
Definition in_range (index : Z) (l : list A) : bool :=
  (0 <=? index) && (index <? len l).

(** Where [list.insert(index, x)] puts [x]: a negative index counts from
    the end, and the position is clamped to [0 .. len(l)]. *)
Definition insert_pos (index : Z) (l : list A) : nat :=
  Z.to_nat (if index <? 0 then Z.max 0 (index + len l)
            else Z.min index (len l)).

(** The list with [x] put at that position. *)
Definition splice (index : Z) (x : A) (l : list A) : list A :=
  firstn (insert_pos index l) l ++ x :: skipn (insert_pos index l) l.

(** [list.insert] first converts its index to a [Py_ssize_t], and the
    conversion raises [OverflowError] when the index does not fit (the
    bounds are those of a 64-bit build). *)
Definition PY_SSIZE_T_MAX : Z := 2 ^ 63 - 1.

Definition PY_SSIZE_T_MIN : Z := - PY_SSIZE_T_MAX - 1.

Definition fits_ssize_t (index : Z) : bool :=
  (PY_SSIZE_T_MIN <=? index) && (index <=? PY_SSIZE_T_MAX).

(** Whether [l.insert(index, x)] accepts [index]. A list holds at most
    [PY_SSIZE_T_MAX] items, so an index from [-len(l)] to [len(l)] always
    fits; for the lists of this size the test is [fits_ssize_t index]
    (lemma [insert_accepts_fits]). *)
Definition insert_accepts (index : Z) (l : list A) : bool :=
  fits_ssize_t index || ((- len l <=? index) && (index <=? len l)).

(** [l.insert(index, x)]: the new list, or [None] for [OverflowError],
    which leaves the list as it is. *)
Definition insert (index : Z) (x : A) (l : list A) : option (list A) :=
  if insert_accepts index l then Some (splice index x l) else None.

(** [l.pop(index)] for an index already known to be in range. *)
Definition pop (index : Z) (l : list A) : list A :=
  firstn (Z.to_nat index) l ++ skipn (S (Z.to_nat index)) l.

(** [l[index]] for an index already known to be in range. *)
Definition getitem (l : list A) (index : Z) : option A :=
  nth_error l (Z.to_nat index).
End Ops.
End PyList.

(** ** The widget *)

(** [ComboBox] inherits [currentText] from [ComboBoxBase];
    [EditableComboBox] overrides it with the text of its line edit. *)
Inductive WidgetClass := ComboBox | EditableComboBox.

Inductive Signal :=
| currentIndexChanged (index : Z)
| currentTextChanged (text : string).

Record QPoint := mkQPoint { px : Z; py : Z }.

Inductive MenuAnimationType := DROP_DOWN | PULL_UP.

(** Calls made on the [ComboBoxMenu] built by [_showComboMenu]. *)
Inductive MenuCall :=
| addAction (index : Z) (text : string)
| view_setMinimumWidth (w : Z)
| menu_adjustSize
| setMaxVisibleItems (num : Z)
| setDefaultAction (index : Z)
| view_heightForAnimation (pos : QPoint) (aniType : MenuAnimationType)
| view_adjustSize (pos : QPoint) (aniType : MenuAnimationType)
| menu_exec (pos : QPoint) (aniType : MenuAnimationType).

(** How a call of [_showComboMenu] ends. *)
Inductive Outcome := Returned | Raised_IndexError.

(** How a call of [insertItem] or [insertItems] ends. *)
Inductive Completion := Completed | Raised_OverflowError.

(** What [_showComboMenu] reads from the windowing layer: the widget's and
    the menu's geometry, and the sizing oracle [heightForAnimation]. *)
Record Host := mkHost {
  mapToGlobal : QPoint -> QPoint;
  width : Z;
  height : Z;
  menu_view_width : Z;
  menu_width : Z;
  contentsMargins_left : Z;
  heightForAnimation : QPoint -> MenuAnimationType -> Z
}.

Section Widget.
Variables Icon UserData : Type.

Record ComboItem := mkComboItem {
  text : string;
  userData : option UserData;
  icon : option Icon
}.

(** The fields of [ComboBoxBase.__init__] that the item list uses, and
    [widgetText], the text shown by the push button or line edit the
    class is mixed into ([setText] / [text()]). [dropMenu] is [true]
    while a menu object is stored in it. *)
Record ComboBoxBase := mkComboBoxBase {
  cls : WidgetClass;
  items : list ComboItem;
  _currentIndex : Z;
  _maxVisibleItems : Z;
  dropMenu : bool;
  widgetText : string
}.

(** A freshly constructed widget: no items, no selection. *)
Definition init (c : WidgetClass) : ComboBoxBase :=
  mkComboBoxBase c [] (-1) (-1) false EmptyString.

(** *** Methods as state transformers with an event log *)

Definition M (E A : Type) : Type := ComboBoxBase -> A * ComboBoxBase * list E.

Definition ret {E A} (a : A) : M E A := fun w => (a, w, []).

Definition bind {E A B} (m : M E A) (k : A -> M E B) : M E B :=
  fun w =>
    let '(a, w1, e1) := m w in
    let '(b, w2, e2) := k a w1 in
    (b, w2, e1 ++ e2).

Definition self {E} : M E ComboBoxBase := fun w => (w, w, []).

Definition log {E} (e : E) : M E unit := fun w => (tt, w, [e]).

Definition set_items {E} (l : list ComboItem) : M E unit :=
  fun w => (tt, mkComboBoxBase (cls w) l (_currentIndex w)
                  (_maxVisibleItems w) (dropMenu w) (widgetText w), []).

Definition set__currentIndex {E} (index : Z) : M E unit :=
  fun w => (tt, mkComboBoxBase (cls w) (items w) index
                  (_maxVisibleItems w) (dropMenu w) (widgetText w), []).

Definition set_dropMenu {E} (b : bool) : M E unit :=
  fun w => (tt, mkComboBoxBase (cls w) (items w) (_currentIndex w)
                  (_maxVisibleItems w) b (widgetText w), []).

(** [setText]: the base class stores the text; [adjustSize] only changes
    geometry. *)
Definition setText {E} (t : string) : M E unit :=
  fun w => (tt, mkComboBoxBase (cls w) (items w) (_currentIndex w)
                  (_maxVisibleItems w) (dropMenu w) t, []).

Notation "x <- m ;; k" := (bind m (fun x => k))
  (at level 61, m at next level, right associativity).
Notation "m ;; k" := (bind m (fun _ => k))
  (at level 61, right associativity).

Definition emit (s : Signal) : M Signal unit := log s.

Definition currentIndex {E} : M E Z :=
  w <- self ;; ret (_currentIndex w).

Definition count {E} : M E Z :=
  w <- self ;; ret (PyList.len (items w)).

Definition setCurrentIndex {E} (index : Z) : M E unit :=
  w <- self ;;
  if negb (PyList.in_range index (items w)) then ret tt
  else
    set__currentIndex index ;;
    match PyList.getitem (items w) index with
    | Some it => setText (text it)
    | None => ret tt  (* not reached: the index is in range *)
    end.

Definition currentText {E} : M E string :=
  w <- self ;;
  match cls w with
  | EditableComboBox => ret (widgetText w)
  | ComboBox =>
      i <- currentIndex ;;
      if negb (PyList.in_range i (items w)) then ret EmptyString
      else match PyList.getitem (items w) i with
           | Some it => ret (text it)
           | None => ret EmptyString  (* not reached *)
           end
  end.

Definition _onItemClicked (index : Z) : M Signal unit :=
  cur <- currentIndex ;;
  if index =? cur then ret tt
  else
    setCurrentIndex index ;;
    t <- currentText ;;
    emit (currentTextChanged t) ;;
    emit (currentIndexChanged index).

Definition addItem (t : string) (ico : option Icon) (data : option UserData)
  : M Signal unit :=
  let item := mkComboItem t data ico in
  w <- self ;;
  set_items (items w ++ [item]) ;;
  n <- count ;;
  if n =? 1 then setCurrentIndex 0 else ret tt.

Fixpoint addItems (texts : list string) : M Signal unit :=
  match texts with
  | [] => ret tt
  | t :: rest => addItem t None None ;; addItems rest
  end.

Definition removeItem (index : Z) : M Signal unit :=
  w <- self ;;
  if negb (PyList.in_range index (items w)) then ret tt
  else
    set_items (PyList.pop index (items w)) ;;
    cur <- currentIndex ;;
    if index <? cur then
      _onItemClicked (cur - 1)
    else if index =? cur then
      if index >? 0 then
        _onItemClicked (cur - 1)
      else
        setCurrentIndex 0 ;;
        t <- currentText ;;
        emit (currentTextChanged t) ;;
        emit (currentIndexChanged 0)
    else ret tt.

Definition clear : M Signal unit :=
  cur <- currentIndex ;;
  (if cur >=? 0 then setText EmptyString else ret tt) ;;
  set_items [] ;;
  set__currentIndex (-1).

Definition insertItem (index : Z) (t : string) (ico : option Icon)
           (data : option UserData) : M Signal Completion :=
  let item := mkComboItem t data ico in
  w <- self ;;
  match PyList.insert index item (items w) with
  | None => ret Raised_OverflowError
  | Some l =>
      set_items l ;;
      cur <- currentIndex ;;
      (if index <=? cur then _onItemClicked (cur + 1) else ret tt) ;;
      ret Completed
  end.

(** *** Opening the menu *)

Fixpoint addActions (i : Z) (l : list ComboItem) : M MenuCall unit :=
  match l with
  | [] => ret tt
  | it :: rest => log (addAction i (text it)) ;; addActions (i + 1) rest
  end.

(** The query to the sizing oracle is logged with its arguments and
    answers what the host answers. *)
Definition ask_heightForAnimation (h : Host) (pos : QPoint)
           (aniType : MenuAnimationType) : M MenuCall Z :=
  log (view_heightForAnimation pos aniType) ;;
  ret (heightForAnimation h pos aniType).

(** The menu gets one action per item, so [menu.menuActions()[cur]] for
    [cur >= 0] raises [IndexError] when [cur] is not an index into the
    item list; nothing after it runs. [ComboBoxMenu.exec] adjusts the
    view once more and runs the menu; it is logged as one call. *)
Definition _showComboMenu (h : Host) : M MenuCall Outcome :=
  w <- self ;;
  match items w with
  | [] => ret Returned
  | _ :: _ =>
    addActions 0 (items w) ;;
    (if menu_view_width h <? width h then
       log (view_setMinimumWidth (width h)) ;; log menu_adjustSize
     else ret tt) ;;
    log (setMaxVisibleItems (_maxVisibleItems w)) ;;
    set_dropMenu true ;;
    cur <- currentIndex ;;
    if (cur >=? 0) && negb (PyList.in_range cur (items w)) then
      ret Raised_IndexError
    else
      (if cur >=? 0 then log (setDefaultAction cur) else ret tt) ;;
      let x := (- menu_width h) / 2 + contentsMargins_left h + width h / 2 in
      let pd := mapToGlobal h (mkQPoint x (height h)) in
      hd <- ask_heightForAnimation h pd DROP_DOWN ;;
      let pu := mapToGlobal h (mkQPoint x 0) in
      hu <- ask_heightForAnimation h pd PULL_UP ;;
      if hd >=? hu then
        log (view_adjustSize pd DROP_DOWN) ;;
        log (menu_exec pd DROP_DOWN) ;;
        ret Returned
      else
        log (view_adjustSize pu PULL_UP) ;;
        log (menu_exec pu PULL_UP) ;;
        ret Returned
  end.

(** *** Sequences of list mutations *)

Inductive Op :=
| OpAddItem (t : string) (ico : option Icon) (data : option UserData)
| OpInsertItem (index : Z) (t : string) (ico : option Icon)
               (data : option UserData)
| OpRemoveItem (index : Z).

(** A call that raises leaves the widget as the exception found it; the
    sequence goes on with the next call, as for a caller that catches the
    exception. *)
Definition apply_op (o : Op) : M Signal unit :=
  match o with
  | OpAddItem t ico data => addItem t ico data
  | OpInsertItem index t ico data => insertItem index t ico data ;; ret tt
  | OpRemoveItem index => removeItem index
  end.

Fixpoint run (ops : list Op) : M Signal unit :=
  match ops with
  | [] => ret tt
  | o :: rest => apply_op o ;; run rest
  end.

(** *** Observing a call *)

Definition value {E A} (m : M E A) (w : ComboBoxBase) : A := fst (fst (m w)).
Definition after {E A} (m : M E A) (w : ComboBoxBase) : ComboBoxBase :=
  snd (fst (m w)).
Definition events {E A} (m : M E A) (w : ComboBoxBase) : list E := snd (m w).

(** The signals of a call, as the slots connected to them see them. *)
Definition emitted {A} (m : M Signal A) (w : ComboBoxBase) : list Signal :=
  events m w.

(** The widget once [self.items] has been mutated into [l]. *)
Definition with_items (w : ComboBoxBase) (l : list ComboItem) : ComboBoxBase :=
  mkComboBoxBase (cls w) l (_currentIndex w) (_maxVisibleItems w)
    (dropMenu w) (widgetText w).

(** The widget once [index] has been selected and [t] is displayed. *)
Definition with_selection (w : ComboBoxBase) (index : Z) (t : string)
  : ComboBoxBase :=
  mkComboBoxBase (cls w) (items w) index (_maxVisibleItems w) (dropMenu w) t.

(** The current index is -1 or an index into the item list. *)
Definition index_ok (w : ComboBoxBase) : bool :=
  (_currentIndex w =? -1) || PyList.in_range (_currentIndex w) (items w).

(** *** Reading the list *)

Definition currentData {E} : M E (option UserData) :=
  w <- self ;;
  i <- currentIndex ;;
  if negb (PyList.in_range i (items w)) then ret None
  else match PyList.getitem (items w) i with
       | Some it => ret (userData it)
       | None => ret None  (* not reached *)
       end.

Definition itemData {E} (index : Z) : M E (option UserData) :=
  w <- self ;;
  if negb (PyList.in_range index (items w)) then ret None
  else match PyList.getitem (items w) index with
       | Some it => ret (userData it)
       | None => ret None  (* not reached *)
       end.

Definition itemText {E} (index : Z) : M E string :=
  w <- self ;;
  if negb (PyList.in_range index (items w)) then ret EmptyString
  else match PyList.getitem (items w) index with
       | Some it => ret (text it)
       | None => ret EmptyString  (* not reached *)
       end.

(** [None] stands for the null icon [QIcon()]. *)
Definition itemIcon {E} (index : Z) : M E (option Icon) :=
  w <- self ;;
  if negb (PyList.in_range index (items w)) then ret None
  else match PyList.getitem (items w) index with
       | Some it => ret (icon it)
       | None => ret None  (* not reached *)
       end.

(** The loop [for i, item in enumerate(self.items): if p(item): return i],
    followed by [return -1]; [i] is the index of the head of [l]. *)
Fixpoint find_first (p : ComboItem -> bool) (i : Z) (l : list ComboItem) : Z :=
  match l with
  | [] => -1
  | it :: rest => if p it then i else find_first p (i + 1) rest
  end.

Definition findText {E} (t : string) : M E Z :=
  w <- self ;;
  ret (find_first (fun it => String.eqb (text it) t) 0 (items w)).

(** [item.userData == data] is whatever [==] the user data brings. *)
Variable userData_eq : option UserData -> option UserData -> bool.

Definition findData {E} (data : option UserData) : M E Z :=
  w <- self ;;
  ret (find_first (fun it => userData_eq (userData it) data) 0 (items w)).

(** *** Changing an item in place *)

Fixpoint update_at (n : nat) (f : ComboItem -> ComboItem) (l : list ComboItem)
  : list ComboItem :=
  match l, n with
  | [], _ => []
  | it :: rest, O => f it :: rest
  | it :: rest, S n' => it :: update_at n' f rest
  end.

Definition setItemText {E} (index : Z) (t : string) : M E unit :=
  w <- self ;;
  if negb (PyList.in_range index (items w)) then ret tt
  else
    set_items (update_at (Z.to_nat index)
                 (fun it => mkComboItem t (userData it) (icon it)) (items w)) ;;
    cur <- currentIndex ;;
    if cur =? index then setText t else ret tt.

Definition setItemData {E} (index : Z) (v : option UserData) : M E unit :=
  w <- self ;;
  if PyList.in_range index (items w) then
    set_items (update_at (Z.to_nat index)
                 (fun it => mkComboItem (text it) v (icon it)) (items w))
  else ret tt.

Definition setItemIcon {E} (index : Z) (ico : option Icon) : M E unit :=
  w <- self ;;
  if PyList.in_range index (items w) then
    set_items (update_at (Z.to_nat index)
                 (fun it => mkComboItem (text it) (userData it) ico) (items w))
  else ret tt.

Definition setCurrentText {E} (t : string) : M E unit :=
  shown <- currentText ;;
  if String.eqb t shown then ret tt
  else
    index <- findText t ;;
    if index >=? 0 then setCurrentIndex index else ret tt.

(** The loop of [insertItems]; it returns the final [pos], or [None]
    when an [insert] raised, with the items inserted until then left in
    the list. *)
Fixpoint insertItems_loop (pos : Z) (texts : list string)
  : M Signal (option Z) :=
  match texts with
  | [] => ret (Some pos)
  | t :: rest =>
      w <- self ;;
      match PyList.insert pos (mkComboItem t None None) (items w) with
      | None => ret None
      | Some l => set_items l ;; insertItems_loop (pos + 1) rest
      end
  end.

Definition insertItems (index : Z) (texts : list string)
  : M Signal Completion :=
  r <- insertItems_loop index texts ;;
  match r with
  | None => ret Raised_OverflowError
  | Some pos =>
      cur <- currentIndex ;;
      (if index <=? cur then _onItemClicked (cur + pos - index) else ret tt) ;;
      ret Completed
  end.

(** *** The line edit of [EditableComboBox] *)

(** [self.text()] *)
Definition widget_text {E} : M E string :=
  w <- self ;; ret (widgetText w).

Definition _onReturnPressed : M Signal unit :=
  t <- widget_text ;;
  if String.eqb t EmptyString then ret tt
  else
    t1 <- widget_text ;;
    index <- findText t1 ;;
    cur <- currentIndex ;;
    if (index >=? 0) && negb (index =? cur) then
      set__currentIndex index ;;
      emit (currentIndexChanged index)
    else if index =? -1 then
      t2 <- widget_text ;;
      addItem t2 None None ;;
      n <- count ;;
      setCurrentIndex (n - 1)
    else ret tt.

(** The loop of [_onTextEdited], which returns at the first match. *)
Fixpoint _onTextEdited_loop (t : string) (i : Z) (l : list ComboItem)
  : M Signal unit :=
  match l with
  | [] => ret tt
  | it :: rest =>
      if String.eqb (text it) t then
        set__currentIndex i ;;
        emit (currentIndexChanged i)
      else _onTextEdited_loop t (i + 1) rest
  end.

(** The line edit already holds [t] when it signals [textEdited(t)]; the
    slot does not write it. *)
Definition _onTextEdited (t : string) : M Signal unit :=
  set__currentIndex (-1) ;;
  emit (currentTextChanged t) ;;
  w <- self ;;
  _onTextEdited_loop t 0 (items w).

(** [LineEdit.clear] empties the line edit. *)
Definition _onClearButtonClicked : M Signal unit :=
  setText EmptyString ;;
  set__currentIndex (-1).

(** *** Sequences of calls to the public methods *)

Inductive Method :=
| AddItem (t : string) (ico : option Icon) (data : option UserData)
| AddItems (texts : list string)
| InsertItem (index : Z) (t : string) (ico : option Icon)
             (data : option UserData)
| InsertItems (index : Z) (texts : list string)
| RemoveItem (index : Z)
| SetCurrentIndex (index : Z)
| SetCurrentText (t : string)
| SetItemText (index : Z) (t : string)
| SetItemData (index : Z) (v : option UserData)
| SetItemIcon (index : Z) (ico : option Icon)
| Clear.

(** As in [apply_op], the sequence goes on after a call that raises. *)
Definition invoke (m : Method) : M Signal unit :=
  match m with
  | AddItem t ico data => addItem t ico data
  | AddItems texts => addItems texts
  | InsertItem index t ico data => insertItem index t ico data ;; ret tt
  | InsertItems index texts => insertItems index texts ;; ret tt
  | RemoveItem index => removeItem index
  | SetCurrentIndex index => setCurrentIndex index
  | SetCurrentText t => setCurrentText t
  | SetItemText index t => setItemText index t
  | SetItemData index v => setItemData index v
  | SetItemIcon index ico => setItemIcon index ico
  | Clear => clear
  end.

Fixpoint invoke_all (ms : list Method) : M Signal unit :=
  match ms with
  | [] => ret tt
  | m :: rest => invoke m ;; invoke_all rest
  end.

Definition is_removeItem (m : Method) : bool :=
  match m with
  | RemoveItem _ => true
  | _ => false
  end.

(** [w'] has at least the items of [w] in number, and its current index
    is that of [w] or an index into its own list. *)
Definition extends (w w' : ComboBoxBase) : Prop :=
  PyList.len (items w) <= PyList.len (items w') /\
  (_currentIndex w' = _currentIndex w \/
   PyList.in_range (_currentIndex w') (items w') = true).

(** The item at [index], when [index] is an index into the list. *)
Definition item_at (w : ComboBoxBase) (index : Z) : option ComboItem :=
  if PyList.in_range index (items w) then PyList.getitem (items w) index
  else None.

End Widget.

Arguments mkComboItem {Icon UserData}.
Arguments text {Icon UserData}.
Arguments userData {Icon UserData}.
Arguments icon {Icon UserData}.
Arguments mkComboBoxBase {Icon UserData}.
Arguments cls {Icon UserData}.
Arguments items {Icon UserData}.
Arguments _currentIndex {Icon UserData}.
Arguments _maxVisibleItems {Icon UserData}.
Arguments dropMenu {Icon UserData}.
Arguments widgetText {Icon UserData}.
Arguments init {Icon UserData}.
Arguments ret {Icon UserData E A}.
Arguments bind {Icon UserData E A B}.
Arguments self {Icon UserData E}.
Arguments log {Icon UserData E}.
Arguments set_items {Icon UserData E}.
Arguments set__currentIndex {Icon UserData E}.
Arguments set_dropMenu {Icon UserData E}.
Arguments setText {Icon UserData E}.
Arguments emit {Icon UserData}.
Arguments currentIndex {Icon UserData E}.
Arguments count {Icon UserData E}.
Arguments setCurrentIndex {Icon UserData E}.
Arguments currentText {Icon UserData E}.
Arguments _onItemClicked {Icon UserData}.
Arguments addItem {Icon UserData}.
Arguments addItems {Icon UserData}.
Arguments removeItem {Icon UserData}.
Arguments clear {Icon UserData}.
Arguments insertItem {Icon UserData}.
Arguments addActions {Icon UserData}.
Arguments ask_heightForAnimation {Icon UserData}.
Arguments _showComboMenu {Icon UserData}.
Arguments OpAddItem {Icon UserData}.
Arguments OpInsertItem {Icon UserData}.
Arguments OpRemoveItem {Icon UserData}.
Arguments apply_op {Icon UserData}.
Arguments run {Icon UserData}.
Arguments value {Icon UserData E A}.
Arguments after {Icon UserData E A}.
Arguments events {Icon UserData E A}.
Arguments emitted {Icon UserData A}.
Arguments with_items {Icon UserData}.
Arguments with_selection {Icon UserData}.
Arguments index_ok {Icon UserData}.
Arguments item_at {Icon UserData}.
Arguments AddItem {Icon UserData}.
Arguments AddItems {Icon UserData}.
Arguments InsertItem {Icon UserData}.
Arguments InsertItems {Icon UserData}.
Arguments RemoveItem {Icon UserData}.
Arguments SetCurrentIndex {Icon UserData}.
Arguments SetCurrentText {Icon UserData}.
Arguments SetItemText {Icon UserData}.
Arguments SetItemData {Icon UserData}.
Arguments SetItemIcon {Icon UserData}.
Arguments Clear {Icon UserData}.
Arguments invoke {Icon UserData}.
Arguments invoke_all {Icon UserData}.
Arguments is_removeItem {Icon UserData}.
Arguments extends {Icon UserData}.
Arguments currentData {Icon UserData E}.
Arguments itemData {Icon UserData E}.
Arguments itemText {Icon UserData E}.
Arguments itemIcon {Icon UserData E}.
Arguments find_first {Icon UserData}.
Arguments findText {Icon UserData E}.
Arguments findData {Icon UserData} userData_eq {E}.
Arguments update_at {Icon UserData}.
Arguments setItemText {Icon UserData E}.
Arguments setItemData {Icon UserData E}.
Arguments setItemIcon {Icon UserData E}.
Arguments setCurrentText {Icon UserData E}.
Arguments insertItems_loop {Icon UserData}.
Arguments insertItems {Icon UserData}.
Arguments widget_text {Icon UserData E}.
Arguments _onReturnPressed {Icon UserData}.
Arguments _onTextEdited_loop {Icon UserData}.
Arguments _onTextEdited {Icon UserData}.
Arguments _onClearButtonClicked {Icon UserData}.

(** ** Concrete widgets and hosts *)

Module Examples.
Local Open Scope string_scope.

Definition Widget : Type := ComboBoxBase unit unit.

Definition item (t : string) : ComboItem unit unit := mkComboItem t None None.

Definition empty_box : Widget := init ComboBox.

(** A combo box showing [texts] with [cur] selected. *)
Definition box (texts : list string) (cur : Z) (shown : string) : Widget :=
  mkComboBoxBase ComboBox (map item texts) cur (-1) false shown.

Definition add_A_remove_0 : list (Op unit unit) :=
  [OpAddItem "A" None None; OpRemoveItem 0].

Definition box_A : Widget := box ["A"] 0 "A".
Definition box_AB : Widget := box ["A"; "B"] 1 "B".
Definition box_ABC : Widget := box ["A"; "B"; "C"] 1 "B".

(** A screen of height [screen]: the room below a point is what is left
    down to the bottom of the screen, the room above it is its ordinate.
    The widget sits at [(gx, gy)] on the screen. *)
Definition room (screen : Z) (pos : QPoint) (aniType : MenuAnimationType) : Z :=
  match aniType with
  | DROP_DOWN => screen - py pos
  | PULL_UP => py pos
  end.

Definition host_at (gx gy screen : Z) : Host :=
  mkHost (fun p => mkQPoint (gx + px p) (gy + py p))
         100 33 80 120 12 (room screen).

(** A host whose oracle answers [hd] for drop-down and [hu] for pull-up
    wherever it is asked. *)
Definition host_heights (hd hu : Z) : Host :=
  mkHost (fun p => mkQPoint (200 + px p) (300 + py p))
         100 33 80 120 12
         (fun _ aniType => match aniType with DROP_DOWN => hd | PULL_UP => hu end).
End Examples.

(** The calls to the sizing oracle in a trace, and the menu that was run. *)
Fixpoint queries (tr : list MenuCall) : list (QPoint * MenuAnimationType) :=
  match tr with
  | [] => []
  | view_heightForAnimation pos aniType :: rest => (pos, aniType) :: queries rest
  | _ :: rest => queries rest
  end.

Fixpoint executed (tr : list MenuCall) : list (QPoint * MenuAnimationType) :=
  match tr with
  | [] => []
  | menu_exec pos aniType :: rest => (pos, aniType) :: executed rest
  | _ :: rest => executed rest
  end.

(** The two anchor points that [_showComboMenu] computes: [pd] on the
    bottom edge of the widget, [pu] on its top edge. *)
Definition anchor_x (h : Host) : Z :=
  (- menu_width h) / 2 + contentsMargins_left h + width h / 2.

Definition pd_of (h : Host) : QPoint :=
  mapToGlobal h (mkQPoint (anchor_x h) (height h)).

Definition pu_of (h : Host) : QPoint :=
  mapToGlobal h (mkQPoint (anchor_x h) 0).

(** ** Drop-down buttons *)

(** [DropDownButtonBase._showMenu] from
    [qfluentwidgets/components/widgets/button.py], as the calls it makes
    on the menu, in order. It does not change the button. The host gives
    the button's geometry; [menu_width] and [contentsMargins_left] are
    those of the menu. *)
Module Button.

Inductive Call :=
| view_setMinimumWidth (w : Z)
| view_adjustSize
| adjustSize
| view_heightForAnimation (pos : QPoint) (aniType : MenuAnimationType)
| view_adjustSize_at (pos : QPoint) (aniType : MenuAnimationType)
| exec (pos : QPoint) (aniType : MenuAnimationType).

(** [menu] tells whether [setMenu] has stored a menu. *)
Definition _showMenu (h : Host) (menu : bool) : list Call :=
  if negb menu then []
  else
    [view_setMinimumWidth (width h); view_adjustSize; adjustSize] ++
    let x := (- menu_width h) / 2 + contentsMargins_left h + width h / 2 in
    let pd := mapToGlobal h (mkQPoint x (height h)) in
    let hd := heightForAnimation h pd DROP_DOWN in
    let pu := mapToGlobal h (mkQPoint x 0) in
    let hu := heightForAnimation h pu PULL_UP in
    [view_heightForAnimation pd DROP_DOWN;
     view_heightForAnimation pu PULL_UP] ++
    if hd >=? hu then [view_adjustSize_at pd DROP_DOWN; exec pd DROP_DOWN]
    else [view_adjustSize_at pu PULL_UP; exec pu PULL_UP].

Fixpoint queries (tr : list Call) : list (QPoint * MenuAnimationType) :=
  match tr with
  | [] => []
  | view_heightForAnimation pos aniType :: rest => (pos, aniType) :: queries rest
  | _ :: rest => queries rest
  end.

Fixpoint executed (tr : list Call) : list (QPoint * MenuAnimationType) :=
  match tr with
  | [] => []
  | exec pos aniType :: rest => (pos, aniType) :: executed rest
  | _ :: rest => executed rest
  end.

End Button.

(** The actions that a trace of [_showComboMenu] adds to the menu. *)
Fixpoint actions (tr : list MenuCall) : list (Z * string) :=
  match tr with
  | [] => []
  | addAction i t :: rest => (i, t) :: actions rest
  | _ :: rest => actions rest
  end.

(** The items of a list with their indices from [i] on, as
    [enumerate] gives them. *)
Fixpoint enumerate_texts {Icon UserData : Type} (i : Z)
         (l : list (ComboItem Icon UserData)) : list (Z * string) :=
  match l with
  | [] => []
  | it :: rest => (i, text it) :: enumerate_texts (i + 1) rest
  end.

(** ** Facts about the list operations *)

Module PyListFacts.
Section Facts.
Context {A : Type}.
Implicit Types (l : list A) (x : A) (index : Z).

Lemma len_nonneg l : 0 <= PyList.len l.
Proof. unfold PyList.len. lia. Qed.

Lemma len_nil_iff l : PyList.len l = 0 <-> l = [].
Proof.
  unfold PyList.len. destruct l; cbn [List.length]; split; intro H;
    try reflexivity; try discriminate; lia.
Qed.

Lemma len_app_one l x : PyList.len (l ++ [x]) = PyList.len l + 1.
Proof. unfold PyList.len. rewrite length_app. cbn [List.length]. lia. Qed.

Lemma in_range_iff index l :
  PyList.in_range index l = true <-> 0 <= index < PyList.len l.
Proof.
  unfold PyList.in_range. rewrite andb_true_iff, Z.leb_le, Z.ltb_lt.
  reflexivity.
Qed.

Lemma in_range_false_iff index l :
  PyList.in_range index l = false <-> index < 0 \/ PyList.len l <= index.
Proof.
  unfold PyList.in_range. rewrite andb_false_iff, Z.leb_gt, Z.ltb_ge.
  reflexivity.
Qed.

Lemma in_range_nil index : PyList.in_range index (@nil A) = false.
Proof. apply in_range_false_iff. unfold PyList.len. cbn. lia. Qed.

Lemma getitem_in_range index l :
  PyList.in_range index l = true -> exists x, PyList.getitem l index = Some x.
Proof.
  intro H. apply in_range_iff in H. unfold PyList.len in H.
  unfold PyList.getitem.
  destruct (nth_error l (Z.to_nat index)) as [x|] eqn:E.
  - now exists x.
  - apply nth_error_None in E. lia.
Qed.

Lemma len_insert index x l :
  PyList.len (PyList.splice index x l) = PyList.len l + 1.
Proof.
  unfold PyList.splice, PyList.len.
  rewrite length_app. cbn [List.length].
  rewrite length_firstn, length_skipn. lia.
Qed.

Lemma len_pop index l :
  PyList.in_range index l = true ->
  PyList.len (PyList.pop index l) = PyList.len l - 1.
Proof.
  intro H. apply in_range_iff in H. unfold PyList.len in *.
  unfold PyList.pop. rewrite length_app, length_firstn, length_skipn. lia.
Qed.
Lemma fits_ssize_t_iff index :
  PyList.fits_ssize_t index = true <-> - 2 ^ 63 <= index < 2 ^ 63.
Proof.
  unfold PyList.fits_ssize_t, PyList.PY_SSIZE_T_MIN, PyList.PY_SSIZE_T_MAX.
  rewrite andb_true_iff, !Z.leb_le. lia.
Qed.

(** On a list that Python can hold, [insert] accepts exactly the indices
    that fit a [Py_ssize_t]. *)
Lemma insert_accepts_fits index l :
  PyList.len l <= PyList.PY_SSIZE_T_MAX ->
  PyList.insert_accepts index l = PyList.fits_ssize_t index.
Proof.
  intros L. unfold PyList.insert_accepts.
  destruct (PyList.fits_ssize_t index) eqn:F; [reflexivity|].
  cbn [orb]. apply andb_false_iff. rewrite !Z.leb_gt.
  assert (~ (- 2 ^ 63 <= index < 2 ^ 63)) as N.
  { intros H. apply fits_ssize_t_iff in H. congruence. }
  unfold PyList.PY_SSIZE_T_MAX in L. lia.
Qed.

Lemma insert_accepts_when_fits index l :
  - 2 ^ 63 <= index < 2 ^ 63 -> PyList.insert_accepts index l = true.
Proof.
  intros H. unfold PyList.insert_accepts.
  rewrite (proj2 (fits_ssize_t_iff index) H). reflexivity.
Qed.

Lemma insert_accepts_within index l :
  - PyList.len l <= index <= PyList.len l ->
  PyList.insert_accepts index l = true.
Proof.
  intros H. unfold PyList.insert_accepts. apply orb_true_iff. right.
  apply andb_true_iff. rewrite !Z.leb_le. exact H.
Qed.

Lemma insert_accepted index x l :
  PyList.insert_accepts index l = true ->
  PyList.insert index x l = Some (PyList.splice index x l).
Proof. unfold PyList.insert. intros ->. reflexivity. Qed.

Lemma insert_refused index x l :
  PyList.insert_accepts index l = false -> PyList.insert index x l = None.
Proof. unfold PyList.insert. intros ->. reflexivity. Qed.

End Facts.
End PyListFacts.

(** ** Properties of the widget *)

Ltac unfold_methods :=
  unfold value, after, emitted, events,
    removeItem, insertItem, addItem, clear, _onItemClicked,
    setCurrentIndex, currentText, currentIndex, count, emit,
    set_items, set__currentIndex, set_dropMenu, setText,
    log, self, bind, ret in *.

Section Properties.
Context {Icon UserData : Type}.
Implicit Types (w : ComboBoxBase Icon UserData) (index : Z).

(** How [setCurrentIndex] runs, for any kind of event log. *)
Lemma setCurrentIndex_out_of_range {E} index w :
  PyList.in_range index (items w) = false ->
  @setCurrentIndex _ _ E index w = (tt, w, []).
Proof.
  intro H. unfold_methods. rewrite H. reflexivity.
Qed.

Lemma setCurrentIndex_in_range {E} index w it :
  PyList.in_range index (items w) = true ->
  PyList.getitem (items w) index = Some it ->
  @setCurrentIndex _ _ E index w =
    (tt, mkComboBoxBase (cls w) (items w) index (_maxVisibleItems w)
           (dropMenu w) (text it), []).
Proof.
  intros H G. unfold_methods. rewrite H. cbn. rewrite G. reflexivity.
Qed.

(** [currentText] reads the widget and leaves it alone. *)
Lemma currentText_pure {E} w :
  exists t, @currentText _ _ E w = (t, w, []).
Proof.
  unfold_methods. destruct (cls w); cbn.
  - destruct (PyList.in_range (_currentIndex w) (items w)); cbn.
    + destruct (PyList.getitem (items w) (_currentIndex w));
        eexists; reflexivity.
    + eexists; reflexivity.
  - eexists; reflexivity.
Qed.

(** When the displayed text is the text of the current item, both
    classes report it as the current text. *)
Lemma currentText_selected {E} w it :
  PyList.in_range (_currentIndex w) (items w) = true ->
  PyList.getitem (items w) (_currentIndex w) = Some it ->
  widgetText w = text it ->
  @currentText _ _ E w = (text it, w, []).
Proof.
  intros H G T. unfold_methods. destruct (cls w); cbn.
  - rewrite H. cbn. rewrite G. reflexivity.
  - rewrite T. reflexivity.
Qed.

(** How [_onItemClicked] runs in its three cases. *)
Lemma _onItemClicked_same index w :
  index = _currentIndex w -> _onItemClicked index w = (tt, w, []).
Proof.
  intros ->. cbv [_onItemClicked bind currentIndex self ret].
  rewrite Z.eqb_refl. reflexivity.
Qed.

Lemma _onItemClicked_valid index w it :
  index <> _currentIndex w ->
  PyList.in_range index (items w) = true ->
  PyList.getitem (items w) index = Some it ->
  _onItemClicked index w =
    (tt, mkComboBoxBase (cls w) (items w) index (_maxVisibleItems w)
           (dropMenu w) (text it),
     [currentTextChanged (text it); currentIndexChanged index]).
Proof.
  intros N H G. cbv [_onItemClicked bind currentIndex self ret emit log].
  apply Z.eqb_neq in N. rewrite N.
  rewrite (setCurrentIndex_in_range index w it H G).
  rewrite (currentText_selected _ it) by assumption || reflexivity.
  reflexivity.
Qed.

Lemma _onItemClicked_invalid index w :
  index <> _currentIndex w ->
  PyList.in_range index (items w) = false ->
  exists t, _onItemClicked index w =
              (tt, w, [currentTextChanged t; currentIndexChanged index]).
Proof.
  intros N H. cbv [_onItemClicked bind currentIndex self ret emit log].
  apply Z.eqb_neq in N. rewrite N.
  rewrite (setCurrentIndex_out_of_range index w H).
  destruct (@currentText_pure Signal w) as [t ->].
  exists t. reflexivity.
Qed.

(** The methods that change the list, by cases, with the binds run. *)
Lemma addItem_eq t ico data w :
  addItem t ico data w =
    let w1 := with_items w (items w ++ [mkComboItem t data ico]) in
    if PyList.len (items w1) =? 1 then setCurrentIndex 0 w1
    else (tt, w1, []).
Proof.
  cbv [addItem bind self ret set_items count with_items].
  cbn [items]. destruct (_ =? 1).
  - destruct (setCurrentIndex 0 _) as [[[] w2] e2]. reflexivity.
  - reflexivity.
Qed.

Lemma insertItem_eq index t ico data w :
  insertItem index t ico data w =
    if PyList.insert_accepts index (items w) then
      let w1 :=
        with_items w (PyList.splice index (mkComboItem t data ico) (items w)) in
      if index <=? _currentIndex w
      then (Completed, after (_onItemClicked (_currentIndex w + 1)) w1,
            events (_onItemClicked (_currentIndex w + 1)) w1)
      else (Completed, w1, [])
    else (Raised_OverflowError, w, []).
Proof.
  cbv [insertItem bind self]. unfold PyList.insert.
  destruct (PyList.insert_accepts index (items w)); [|reflexivity].
  cbv [bind ret set_items currentIndex self with_items after events].
  cbn [_currentIndex]. destruct (index <=? _).
  - destruct (_onItemClicked _ _) as [[[] w2] e2]. cbn [fst snd].
    rewrite !app_nil_r. reflexivity.
  - reflexivity.
Qed.

Lemma removeItem_eq index w :
  removeItem index w =
    if PyList.in_range index (items w) then
      let w1 := with_items w (PyList.pop index (items w)) in
      if index <? _currentIndex w then _onItemClicked (_currentIndex w - 1) w1
      else if index =? _currentIndex w then
        if index >? 0 then _onItemClicked (_currentIndex w - 1) w1
        else
          let w2 := after (E:=Signal) (setCurrentIndex 0) w1 in
          (tt, w2, [currentTextChanged (value (E:=Signal) currentText w2);
                    currentIndexChanged 0])
      else (tt, w1, [])
    else (tt, w, []).
Proof.
  cbv [removeItem bind self ret set_items currentIndex with_items emit log
       after value].
  cbn [_currentIndex]. destruct (PyList.in_range index (items w)); cbn [negb].
  2: reflexivity.
  destruct (index <? _).
  { destruct (_onItemClicked _ _) as [[[] w2] e2]. reflexivity. }
  destruct (index =? _). 2: reflexivity.
  destruct (index >? 0).
  { destruct (_onItemClicked _ _) as [[[] w2] e2]. reflexivity. }
  match goal with
  | |- context [@setCurrentIndex _ _ Signal 0 ?w1] =>
      destruct (@setCurrentIndex _ _ Signal 0 w1) as [[[] w2] e2] eqn:S;
      assert (e2 = []) as ->
  end.
  { match type of S with
    | setCurrentIndex 0 ?w1 = _ =>
        destruct (PyList.in_range 0 (items w1)) eqn:R
    end.
    - destruct (PyListFacts.getitem_in_range _ _ R) as [it G].
      rewrite (setCurrentIndex_in_range _ _ it R G) in S. congruence.
    - rewrite (setCurrentIndex_out_of_range _ _ R) in S. congruence. }
  cbn [fst snd].
  destruct (@currentText_pure Signal w2) as [t ->]. reflexivity.
Qed.

(** What a call leaves in the widget's list and current index. *)
Lemma setCurrentIndex_after {E} index w :
  items (after (E:=E) (setCurrentIndex index) w) = items w /\
  _currentIndex (after (E:=E) (setCurrentIndex index) w) =
    if PyList.in_range index (items w) then index else _currentIndex w.
Proof.
  unfold after. destruct (PyList.in_range index (items w)) eqn:R.
  - destruct (PyListFacts.getitem_in_range _ _ R) as [it G].
    rewrite (setCurrentIndex_in_range _ _ it R G). split; reflexivity.
  - rewrite (setCurrentIndex_out_of_range _ _ R). split; reflexivity.
Qed.

Lemma _onItemClicked_after index w :
  items (after (_onItemClicked index) w) = items w /\
  _currentIndex (after (_onItemClicked index) w) =
    if PyList.in_range index (items w) then index else _currentIndex w.
Proof.
  unfold after. destruct (Z.eq_dec index (_currentIndex w)) as [Same|N].
  - rewrite (_onItemClicked_same _ _ Same). cbn [fst snd].
    split; [reflexivity|]. now destruct (PyList.in_range _ _).
  - destruct (PyList.in_range index (items w)) eqn:R.
    + destruct (PyListFacts.getitem_in_range _ _ R) as [it G].
      rewrite (_onItemClicked_valid _ _ it N R G). split; reflexivity.
    + destruct (_onItemClicked_invalid _ _ N R) as [t ->].
      split; reflexivity.
Qed.

Lemma after_bind {E A B} (m : M Icon UserData E A)
      (k : A -> M Icon UserData E B) w :
  after (bind m k) w = after (k (value m w)) (after m w).
Proof.
  unfold after, value, bind. destruct (m w) as [[a w1] e1]. cbn [fst snd].
  destruct (k a w1) as [[b w2] e2]. reflexivity.
Qed.

(** A caller that goes on after a call, whatever it returned or raised,
    has the widget as the call left it. *)
Lemma after_then_ret {E A} (m : M Icon UserData E A) w :
  after (bind m (fun _ => ret tt)) w = after m w.
Proof.
  unfold after, bind, ret. destruct (m w) as [[a w1] e1]. reflexivity.
Qed.

(** *** Selecting an index *)

(** C9: [setCurrentIndex(index)] with an index outside [0, count) leaves
    the current index and the displayed text as they were; with an index
    inside it, the current index becomes [index] and the displayed text
    becomes the text of the item at [index]; neither case emits a
    text-changed or index-changed signal. *)
Theorem setCurrentIndex_frame index w :
  emitted (setCurrentIndex index) w = [] /\
  (PyList.in_range index (items w) = false ->
     after (E:=Signal) (setCurrentIndex index) w = w) /\
  (PyList.in_range index (items w) = true ->
     exists it,
       PyList.getitem (items w) index = Some it /\
       after (E:=Signal) (setCurrentIndex index) w =
         with_selection w index (text it)).
Proof.
  unfold emitted, events, after.
  destruct (PyList.in_range index (items w)) eqn:R.
  - destruct (PyListFacts.getitem_in_range _ _ R) as [it G].
    rewrite (setCurrentIndex_in_range _ _ it R G). cbn [fst snd].
    repeat split; try discriminate.
    intros _. exists it. split; [assumption | reflexivity].
  - rewrite (setCurrentIndex_out_of_range _ _ R). cbn [fst snd].
    repeat split; try discriminate.
Qed.

(** C4, as amended: [_onItemClicked(index)] with [index] equal to the
    current index changes nothing and emits nothing; with an index in
    [0, count) that differs from the current index it selects the index,
    displays the item's text and emits text-changed and then
    index-changed; with an index outside [0, count) that differs from the
    current index it leaves the current index and the displayed text as
    they were. *)
Theorem _onItemClicked_cases index w :
  (index = _currentIndex w ->
     after (_onItemClicked index) w = w /\
     emitted (_onItemClicked index) w = []) /\
  (index <> _currentIndex w -> PyList.in_range index (items w) = true ->
     exists it,
       PyList.getitem (items w) index = Some it /\
       after (_onItemClicked index) w = with_selection w index (text it) /\
       emitted (_onItemClicked index) w =
         [currentTextChanged (text it); currentIndexChanged index]) /\
  (index <> _currentIndex w -> PyList.in_range index (items w) = false ->
     after (_onItemClicked index) w = w).
Proof.
  unfold emitted, events, after. split; [|split].
  - intros Same. rewrite (_onItemClicked_same _ _ Same).
    split; reflexivity.
  - intros N R. destruct (PyListFacts.getitem_in_range _ _ R) as [it G].
    exists it. rewrite (_onItemClicked_valid _ _ it N R G).
    repeat split. assumption.
  - intros N R. destruct (_onItemClicked_invalid _ _ N R) as [t ->].
    reflexivity.
Qed.

(** *** Adding *)

(** C7: [addItem] on a widget without items appends the item, makes 0
    the current index, displays the item's text and emits no signal;
    [addItem] on a widget that has items appends the item and leaves the
    current index and the displayed text as they were. *)
Theorem addItem_selection t ico data w :
  (items w = [] ->
     items (after (addItem t ico data) w) = [mkComboItem t data ico] /\
     _currentIndex (after (addItem t ico data) w) = 0 /\
     widgetText (after (addItem t ico data) w) = t /\
     emitted (addItem t ico data) w = []) /\
  (items w <> [] ->
     items (after (addItem t ico data) w) =
       items w ++ [mkComboItem t data ico] /\
     _currentIndex (after (addItem t ico data) w) = _currentIndex w /\
     widgetText (after (addItem t ico data) w) = widgetText w).
Proof.
  unfold emitted, events, after. rewrite addItem_eq. cbv zeta.
  cbn [with_items items]. split.
  - intros ->. cbn [app].
    change (PyList.len [mkComboItem t data ico] =? 1) with true. cbv iota.
    unfold_methods. cbn. repeat split.
  - intros NE. rewrite PyListFacts.len_app_one.
    destruct (PyList.len (items w) + 1 =? 1) eqn:L.
    + apply Z.eqb_eq in L.
      assert (PyList.len (items w) = 0) as Z0 by lia.
      apply PyListFacts.len_nil_iff in Z0. contradiction.
    + cbn. repeat split.
Qed.

(** *** Removing *)

(** C8: when [removeItem(0)] removes the item at the current index 0, it
    emits text-changed with the current text and then index-changed with
    0, whatever is left in the list, also when nothing is left. *)
Theorem removeItem_first_emits w :
  items w <> [] -> _currentIndex w = 0 ->
  emitted (removeItem 0) w =
    [currentTextChanged
       (value (E:=Signal) currentText (after (removeItem 0) w));
     currentIndexChanged 0].
Proof.
  intros NE C. unfold emitted, events, after at 1.
  rewrite removeItem_eq.
  assert (PyList.in_range 0 (items w) = true) as ->.
  { apply PyListFacts.in_range_iff.
    pose proof (PyListFacts.len_nonneg (items w)).
    pose proof (PyListFacts.len_nil_iff (items w)).
    assert (PyList.len (items w) <> 0) by tauto. lia. }
  rewrite C. cbn. reflexivity.
Qed.

(** What [removeItem] does to the current index when it removes the
    current item: one less for a positive index, and 0 for index 0,
    whether or not an item is left. *)
Lemma removeItem_current index w :
  PyList.in_range index (items w) = true -> index = _currentIndex w ->
  items (after (removeItem index) w) = PyList.pop index (items w) /\
  (0 < index -> _currentIndex (after (removeItem index) w) = index - 1) /\
  (index = 0 -> _currentIndex (after (removeItem index) w) = 0).
Proof.
  intros R Same. unfold after at 1 2 3. rewrite removeItem_eq, R. cbv zeta.
  rewrite <- Same, Z.ltb_irrefl, Z.eqb_refl.
  pose proof (PyListFacts.len_pop _ _ R) as L.
  apply PyListFacts.in_range_iff in R.
  set (w1 := with_items w (PyList.pop index (items w))) in *.
  destruct (index >? 0) eqn:P.
  - destruct (_onItemClicked_after (index - 1) w1) as [I C].
    fold (after (_onItemClicked (index - 1)) w1). rewrite I, C.
    assert (PyList.in_range (index - 1) (items w1) = true) as ->.
    { apply PyListFacts.in_range_iff. subst w1. cbn [with_items items].
      apply Z.gtb_lt in P. lia. }
    repeat split; intros; lia.
  - cbn [fst snd].
    destruct (setCurrentIndex_after (E:=Signal) 0 w1) as [I C].
    rewrite I, C. split; [reflexivity|].
    assert (index = 0) as I0.
    { rewrite Z.gtb_ltb in P. apply Z.ltb_ge in P. lia. }
    split; [lia|]. intros _.
    destruct (PyList.in_range 0 (items w1)); [reflexivity|].
    subst w1. cbn [with_items _currentIndex]. lia.
Qed.

(** *** Inserting *)

(** C5, as amended: on a widget whose current index is an index into the
    list, [insertItem(index, ...)] with [-2^63 <= index <= currentIndex]
    makes the current index one more than it was, displays the text of
    the item now at that index and emits text-changed with that text and
    then index-changed with the new index, as a click on that item does;
    with [index > currentIndex] it leaves the current index, and the
    displayed text, as they were and emits nothing. *)
Theorem insertItem_shift index t ico data w :
  PyList.in_range (_currentIndex w) (items w) = true ->
  (- 2 ^ 63 <= index <= _currentIndex w ->
     value (insertItem index t ico data) w = Completed /\
     _currentIndex (after (insertItem index t ico data) w) =
       _currentIndex w + 1 /\
     after (insertItem index t ico data) w =
       after (_onItemClicked (_currentIndex w + 1))
         (with_items w
            (PyList.splice index (mkComboItem t data ico) (items w))) /\
     emitted (insertItem index t ico data) w =
       emitted (_onItemClicked (_currentIndex w + 1))
         (with_items w
            (PyList.splice index (mkComboItem t data ico) (items w))) /\
     exists it,
       PyList.getitem (items (after (insertItem index t ico data) w))
         (_currentIndex w + 1) = Some it /\
       widgetText (after (insertItem index t ico data) w) = text it /\
       emitted (insertItem index t ico data) w =
         [currentTextChanged (text it);
          currentIndexChanged (_currentIndex w + 1)]) /\
  (_currentIndex w < index ->
     _currentIndex (after (insertItem index t ico data) w) =
       _currentIndex w /\
     widgetText (after (insertItem index t ico data) w) = widgetText w /\
     emitted (insertItem index t ico data) w = []).
Proof.
  intros V. unfold emitted, events, after, value. rewrite insertItem_eq.
  pose proof V as V'. apply PyListFacts.in_range_iff in V'.
  split.
  - intros [Min Le].
    assert (PyList.insert_accepts index (items w) = true) as ->.
    { destruct (Z_lt_le_dec index 0) as [Neg|Pos].
      - apply PyListFacts.insert_accepts_when_fits. lia.
      - apply PyListFacts.insert_accepts_within. lia. }
    cbv zeta. set (w1 := with_items w _).
    assert ((index <=? _currentIndex w) = true) as -> by (apply Z.leb_le; lia).
    cbn [fst snd].
    assert (PyList.in_range (_currentIndex w + 1) (items w1) = true) as R.
    { apply PyListFacts.in_range_iff.
      subst w1. cbn [with_items items]. rewrite PyListFacts.len_insert.
      lia. }
    destruct (PyListFacts.getitem_in_range _ _ R) as [it G].
    assert (_currentIndex w + 1 <> _currentIndex w1) as N.
    { subst w1. cbn [with_items _currentIndex]. lia. }
    unfold after, events.
    rewrite (_onItemClicked_valid _ _ it N R G). cbn [fst snd items
                                                      _currentIndex widgetText
                                                      with_selection].
    split; [reflexivity|]. split; [reflexivity|]. split; [reflexivity|].
    split; [reflexivity|]. exists it.
    split; [exact G|]. split; reflexivity.
  - intros Lt.
    assert ((index <=? _currentIndex w) = false) as -> by (apply Z.leb_gt; lia).
    destruct (PyList.insert_accepts index (items w)); repeat split.
Qed.

(** C10, as amended: [insertItem(index, ...)] with [0 <= index < 2^63] on
    a widget without items and with current index -1 inserts the item and
    selects nothing: the current index stays -1, the displayed text is as
    it was, and no signal is emitted. *)
Theorem insertItem_into_empty index t ico data w :
  0 <= index < 2 ^ 63 -> items w = [] -> _currentIndex w = -1 ->
  value (insertItem index t ico data) w = Completed /\
  items (after (insertItem index t ico data) w) = [mkComboItem t data ico] /\
  _currentIndex (after (insertItem index t ico data) w) = -1 /\
  widgetText (after (insertItem index t ico data) w) = widgetText w /\
  emitted (insertItem index t ico data) w = [].
Proof.
  intros P Emp C. unfold emitted, events, after, value.
  rewrite insertItem_eq.
  rewrite (PyListFacts.insert_accepts_when_fits index (items w))
    by (pose proof (Z.pow_pos_nonneg 2 63); lia).
  cbv zeta. rewrite C, Emp.
  assert ((index <=? -1) = false) as -> by (apply Z.leb_gt; lia).
  cbn [fst snd with_items items _currentIndex widgetText].
  unfold PyList.splice. rewrite firstn_nil, skipn_nil. cbn [app].
  repeat split. exact C.
Qed.

(** *** Every sequence of mutations *)

(** After any one mutation, a current index that was -1, an index into
    the list, or 0 over an empty list is again one of the three. The last
    of them is what [removeItem(0)] leaves behind when it empties the
    list. *)
Lemma apply_op_index o w :
  index_ok w = true \/ (items w = [] /\ _currentIndex w = 0) ->
  index_ok (after (apply_op o) w) = true \/
  (items (after (apply_op o) w) = [] /\ _currentIndex (after (apply_op o) w) = 0).
Proof.
  intros Inv.
  assert (_currentIndex w = -1 \/
          (0 <= _currentIndex w < PyList.len (items w)) \/
          (PyList.len (items w) = 0 /\ _currentIndex w = 0)) as Inv'.
  { destruct Inv as [Ok|[Emp C]].
    - unfold index_ok in Ok. apply orb_true_iff in Ok.
      destruct Ok as [Ok|Ok]; [left; now apply Z.eqb_eq|].
      right; left. now apply PyListFacts.in_range_iff.
    - right; right. split; [now apply PyListFacts.len_nil_iff | exact C]. }
  clear Inv.
  cut (_currentIndex (after (apply_op o) w) = -1 \/
       (0 <= _currentIndex (after (apply_op o) w)
          < PyList.len (items (after (apply_op o) w))) \/
       (PyList.len (items (after (apply_op o) w)) = 0 /\
        _currentIndex (after (apply_op o) w) = 0)).
  { intros [C|[C|[L C]]].
    - left. unfold index_ok. rewrite C. reflexivity.
    - left. unfold index_ok. apply orb_true_iff. right.
      now apply PyListFacts.in_range_iff.
    - right. split; [now apply PyListFacts.len_nil_iff | exact C]. }
  pose proof (PyListFacts.len_nonneg (items w)) as Lw.
  destruct o as [t ico data | index t ico data | index]; cbn [apply_op].
  - (* addItem *)
    unfold after. rewrite addItem_eq. cbv zeta.
    set (w1 := with_items w _).
    assert (PyList.len (items w1) = PyList.len (items w) + 1) as L1.
    { subst w1. cbn [with_items items]. apply PyListFacts.len_app_one. }
    assert (_currentIndex w1 = _currentIndex w) as C1 by reflexivity.
    destruct (PyList.len (items w1) =? 1) eqn:One.
    + destruct (setCurrentIndex_after (E:=Signal) 0 w1) as [I C].
      unfold after in I, C. rewrite I, C.
      assert (PyList.in_range 0 (items w1) = true) as ->
        by (apply PyListFacts.in_range_iff; lia).
      lia.
    + apply Z.eqb_neq in One. cbn [fst snd]. lia.
  - (* insertItem *)
    rewrite after_then_ret. unfold after.
    rewrite insertItem_eq.
    destruct (PyList.insert_accepts index (items w)); [|cbn [fst snd]; lia].
    cbv zeta. set (w1 := with_items w _).
    assert (PyList.len (items w1) = PyList.len (items w) + 1) as L1.
    { subst w1. cbn [with_items items]. apply PyListFacts.len_insert. }
    assert (_currentIndex w1 = _currentIndex w) as C1 by reflexivity.
    destruct (index <=? _currentIndex w) eqn:Le; cbn [fst snd].
    + destruct (_onItemClicked_after (_currentIndex w + 1) w1) as [I C].
      rewrite I, C.
      destruct (PyList.in_range (_currentIndex w + 1) (items w1)) eqn:R.
      * apply PyListFacts.in_range_iff in R. lia.
      * apply PyListFacts.in_range_false_iff in R. lia.
    + lia.
  - (* removeItem *)
    unfold after. rewrite removeItem_eq.
    destruct (PyList.in_range index (items w)) eqn:R; [|cbn [fst snd]; lia].
    cbv zeta. set (w1 := with_items w _).
    assert (PyList.len (items w1) = PyList.len (items w) - 1) as L1.
    { subst w1. cbn [with_items items]. now apply PyListFacts.len_pop. }
    assert (_currentIndex w1 = _currentIndex w) as C1 by reflexivity.
    apply PyListFacts.in_range_iff in R.
    destruct (index <? _currentIndex w) eqn:Lt.
    { apply Z.ltb_lt in Lt.
      destruct (_onItemClicked_after (_currentIndex w - 1) w1) as [I C].
      unfold after in I, C. rewrite I, C.
      destruct (PyList.in_range (_currentIndex w - 1) (items w1)) eqn:R1.
      - apply PyListFacts.in_range_iff in R1. lia.
      - apply PyListFacts.in_range_false_iff in R1. lia. }
    apply Z.ltb_ge in Lt.
    destruct (index =? _currentIndex w) eqn:Eq.
    2: { apply Z.eqb_neq in Eq. cbn [fst snd]. lia. }
    apply Z.eqb_eq in Eq.
    destruct (index >? 0) eqn:P.
    { rewrite Z.gtb_ltb in P. apply Z.ltb_lt in P.
      destruct (_onItemClicked_after (_currentIndex w - 1) w1) as [I C].
      unfold after in I, C. rewrite I, C.
      destruct (PyList.in_range (_currentIndex w - 1) (items w1)) eqn:R1.
      - apply PyListFacts.in_range_iff in R1. lia.
      - apply PyListFacts.in_range_false_iff in R1. lia. }
    rewrite Z.gtb_ltb in P. apply Z.ltb_ge in P. cbn [fst snd].
    destruct (setCurrentIndex_after (E:=Signal) 0 w1) as [I C].
    rewrite I, C.
    destruct (PyList.in_range 0 (items w1)) eqn:R1.
    + apply PyListFacts.in_range_iff in R1. lia.
    + apply PyListFacts.in_range_false_iff in R1. lia.
Qed.

Lemma run_index ops : forall w,
  index_ok w = true \/ (items w = [] /\ _currentIndex w = 0) ->
  index_ok (after (run ops) w) = true \/
  (items (after (run ops) w) = [] /\ _currentIndex (after (run ops) w) = 0).
Proof.
  induction ops as [|o rest IH]; intros w Inv.
  - exact Inv.
  - cbn [run]. rewrite after_bind. apply IH. now apply apply_op_index.
Qed.

(** *** Opening the menu *)

(** Filling the menu asks the oracle nothing and runs nothing. *)
Lemma addActions_run (l : list (ComboItem Icon UserData)) : forall i w,
  exists tr,
    addActions i l w = (tt, w, tr) /\ queries tr = [] /\ executed tr = [].
Proof.
  induction l as [|it rest IH]; intros i w; cbn [addActions].
  - exists []. repeat split.
  - destruct (IH (i + 1) w) as (tr & Run & Q & X).
    exists (addAction i (text it) :: tr).
    cbv [bind log]. rewrite Run. repeat split; assumption.
Qed.

Lemma queries_app tr1 tr2 : queries (tr1 ++ tr2) = queries tr1 ++ queries tr2.
Proof.
  induction tr1 as [|c tr1 IH]; [reflexivity|].
  destruct c; cbn [app queries]; rewrite IH; reflexivity.
Qed.

Lemma executed_app tr1 tr2 :
  executed (tr1 ++ tr2) = executed tr1 ++ executed tr2.
Proof.
  induction tr1 as [|c tr1 IH]; [reflexivity|].
  destruct c; cbn [app executed]; rewrite IH; reflexivity.
Qed.

(** What [_showComboMenu] asks the oracle and which menu it runs, on a
    widget that has items. *)
Lemma _showComboMenu_trace h w :
  items w <> [] -> _currentIndex w < PyList.len (items w) ->
  value (_showComboMenu h) w = Returned /\
  queries (events (_showComboMenu h) w) =
    [(pd_of h, DROP_DOWN); (pd_of h, PULL_UP)] /\
  executed (events (_showComboMenu h) w) =
    if heightForAnimation h (pd_of h) DROP_DOWN
         >=? heightForAnimation h (pd_of h) PULL_UP
    then [(pd_of h, DROP_DOWN)] else [(pu_of h, PULL_UP)].
Proof.
  intros NE Lt.
  assert ((_currentIndex w >=? 0)
          && negb (PyList.in_range (_currentIndex w) (items w)) = false) as G.
  { destruct (_currentIndex w >=? 0) eqn:P; [|reflexivity].
    rewrite Z.geb_leb in P. apply Z.leb_le in P.
    assert (PyList.in_range (_currentIndex w) (items w) = true) as ->
      by (apply PyListFacts.in_range_iff; lia).
    reflexivity. }
  unfold value, events, _showComboMenu, pd_of, pu_of, anchor_x.
  destruct (items w) as [|it rest] eqn:I; [contradiction|].
  destruct (addActions_run (it :: rest) 0 w) as (tr & Run & Q & X).
  cbv [bind self ask_heightForAnimation]. rewrite I, Run.
  cbv [log ret set_dropMenu currentIndex self bind].
  destruct (menu_view_width h <? width h);
    cbn [_currentIndex items fst snd];
    rewrite I, G;
    destruct (_currentIndex w >=? 0);
    destruct (_ >=? _);
    cbn [fst snd app];
    rewrite ?queries_app, ?executed_app, ?Q, ?X; repeat split.
Qed.

(** C6: on a widget that has items and whose current index does not
    exceed them, [_showComboMenu] returns, having asked the oracle once
    for drop-down and once for pull-up, and with [hd] and [hu] the two
    heights it is told, it runs the menu as a drop-down exactly when
    [hd >= hu] and as a pull-up exactly when [hd < hu]; equal heights
    give a drop-down. *)
Theorem placement_by_reported_heights h w :
  items w <> [] -> _currentIndex w < PyList.len (items w) ->
  value (_showComboMenu h) w = Returned /\
  exists qd qu,
    queries (events (_showComboMenu h) w) =
      [(qd, DROP_DOWN); (qu, PULL_UP)] /\
    (heightForAnimation h qd DROP_DOWN >= heightForAnimation h qu PULL_UP <->
     map snd (executed (events (_showComboMenu h) w)) = [DROP_DOWN]) /\
    (heightForAnimation h qd DROP_DOWN < heightForAnimation h qu PULL_UP <->
     map snd (executed (events (_showComboMenu h) w)) = [PULL_UP]).
Proof.
  intros NE Lt. destruct (_showComboMenu_trace h w NE Lt) as (R & Q & X).
  split; [exact R|].
  exists (pd_of h), (pd_of h). split; [exact Q|]. rewrite X.
  destruct (_ >=? _) eqn:G; cbn [map snd].
  - rewrite Z.geb_leb in G. apply Z.leb_le in G.
    split; split; intros; try reflexivity; try discriminate; lia.
  - rewrite Z.geb_leb in G. apply Z.leb_gt in G.
    split; split; intros; try reflexivity; try discriminate; lia.
Qed.

(** Emptying the widget with [clear] does reset the current index. *)
Lemma clear_resets w :
  items (after clear w) = [] /\ _currentIndex (after clear w) = -1.
Proof.
  unfold after. cbv [clear bind currentIndex self ret].
  destruct (_currentIndex w >=? 0); split; reflexivity.
Qed.

End Properties.

(** ** The theorems at concrete widgets *)

Section Concrete.
Import Examples.
Local Open Scope string_scope.

Lemma setCurrentIndex_frame_witness :
  (PyList.in_range 2 (items box_ABC) = true /\
   after (E:=Signal) (setCurrentIndex 2) box_ABC = box ["A"; "B"; "C"] 2 "C") /\
  (PyList.in_range 3 (items box_ABC) = false /\
   after (E:=Signal) (setCurrentIndex 3) box_ABC = box_ABC) /\
  emitted (setCurrentIndex 2) box_ABC = [].
Proof.
  split; [|split].
  - split; [reflexivity|].
    destruct (proj2 (proj2 (setCurrentIndex_frame 2 box_ABC)) eq_refl)
      as (it & G & Run).
    injection G as <-. exact Run.
  - split; [reflexivity|].
    exact (proj1 (proj2 (setCurrentIndex_frame 3 box_ABC)) eq_refl).
  - exact (proj1 (setCurrentIndex_frame 2 box_ABC)).
Defined.

Lemma _onItemClicked_cases_witness :
  (1 = _currentIndex box_ABC /\
   after (_onItemClicked 1) box_ABC = box_ABC /\
   emitted (_onItemClicked 1) box_ABC = []) /\
  (2 <> _currentIndex box_ABC /\
   PyList.in_range 2 (items box_ABC) = true /\
   after (_onItemClicked 2) box_ABC = box ["A"; "B"; "C"] 2 "C" /\
   emitted (_onItemClicked 2) box_ABC =
     [currentTextChanged "C"; currentIndexChanged 2]) /\
  (5 <> _currentIndex box_ABC /\
   PyList.in_range 5 (items box_ABC) = false /\
   after (_onItemClicked 5) box_ABC = box_ABC).
Proof.
  split; [|split].
  - split; [reflexivity|].
    exact (proj1 (_onItemClicked_cases 1 box_ABC) eq_refl).
  - assert (2 <> _currentIndex box_ABC) as N by discriminate.
    split; [exact N|]. split; [reflexivity|].
    destruct (proj1 (proj2 (_onItemClicked_cases 2 box_ABC)) N eq_refl)
      as (it & G & Run & Em).
    injection G as <-. split; [exact Run | exact Em].
  - assert (5 <> _currentIndex box_ABC) as N by discriminate.
    split; [exact N|]. split; [reflexivity|].
    exact (proj2 (proj2 (_onItemClicked_cases 5 box_ABC)) N eq_refl).
Defined.

(** C4 as the specification states it fails: a click on index 5 of a
    one-item box, which is out of range and is not the current index,
    changes nothing in the widget and still emits both signals, the
    second with the index that was refused. *)
Lemma _onItemClicked_out_of_range_emits :
  PyList.in_range 5 (items box_A) = false /\
  after (_onItemClicked 5) box_A = box_A /\
  emitted (_onItemClicked 5) box_A =
    [currentTextChanged "A"; currentIndexChanged 5] /\
  emitted (_onItemClicked 5) box_A <> [].
Proof.
  repeat split. discriminate.
Qed.

Lemma addItem_selection_witness :
  (items empty_box = [] /\
   items (after (addItem "A" None None) empty_box) = [item "A"] /\
   _currentIndex (after (addItem "A" None None) empty_box) = 0 /\
   widgetText (after (addItem "A" None None) empty_box) = "A" /\
   emitted (addItem "A" None None) empty_box = []) /\
  (items box_A <> [] /\
   items (after (addItem "B" None None) box_A) = [item "A"; item "B"] /\
   _currentIndex (after (addItem "B" None None) box_A) = 0 /\
   widgetText (after (addItem "B" None None) box_A) = "A").
Proof.
  split.
  - split; [reflexivity|].
    exact (proj1 (addItem_selection "A" None None empty_box) eq_refl).
  - assert (items box_A <> []) as NE by discriminate.
    split; [exact NE|].
    exact (proj2 (addItem_selection "B" None None box_A) NE).
Defined.

Lemma removeItem_first_emits_witness :
  items box_A <> [] /\ _currentIndex box_A = 0 /\
  items (after (removeItem 0) box_A) = [] /\
  emitted (removeItem 0) box_A =
    [currentTextChanged ""; currentIndexChanged 0].
Proof.
  assert (items box_A <> []) as NE by discriminate.
  split; [exact NE|]. split; [reflexivity|]. split; [reflexivity|].
  exact (removeItem_first_emits box_A NE eq_refl).
Defined.

Lemma insertItem_shift_witness :
  PyList.in_range (_currentIndex box_AB) (items box_AB) = true /\
  (- 2 ^ 63 <= 0 <= _currentIndex box_AB /\
   value (insertItem 0 "Z" None None) box_AB = Completed /\
   after (insertItem 0 "Z" None None) box_AB = box ["Z"; "A"; "B"] 2 "B" /\
   emitted (insertItem 0 "Z" None None) box_AB =
     [currentTextChanged "B"; currentIndexChanged 2]) /\
  (_currentIndex box_AB < 2 /\
   _currentIndex (after (insertItem 2 "Z" None None) box_AB) = 1 /\
   widgetText (after (insertItem 2 "Z" None None) box_AB) = "B" /\
   emitted (insertItem 2 "Z" None None) box_AB = []).
Proof.
  split; [reflexivity|]. split.
  - assert (- 2 ^ 63 <= 0 <= _currentIndex box_AB) as Le
      by (split; discriminate).
    split; [exact Le|].
    destruct (proj1 (insertItem_shift 0 "Z" None None box_AB eq_refl) Le)
      as (Done & _ & _ & _ & it & G & _ & Em).
    split; [exact Done|].
    injection G as <-. split; [reflexivity | exact Em].
  - assert (_currentIndex box_AB < 2) as Lt by reflexivity.
    split; [exact Lt|].
    exact (proj2 (insertItem_shift 2 "Z" None None box_AB eq_refl) Lt).
Defined.

(** C5 as the specification states it fails: [insertItem(-2^63 - 1, "Z")]
    on a box with the second of two items current has an index below the
    current index, but [list.insert] raises [OverflowError] for it:
    nothing is inserted, the current index stays 1 and no signal is
    emitted. *)
Lemma insertItem_below_ssize_t_raises :
  PyList.in_range (_currentIndex box_AB) (items box_AB) = true /\
  - 2 ^ 63 - 1 <= _currentIndex box_AB /\
  value (insertItem (- 2 ^ 63 - 1) "Z" None None) box_AB
    = Raised_OverflowError /\
  after (insertItem (- 2 ^ 63 - 1) "Z" None None) box_AB = box_AB /\
  _currentIndex (after (insertItem (- 2 ^ 63 - 1) "Z" None None) box_AB)
    <> _currentIndex box_AB + 1 /\
  emitted (insertItem (- 2 ^ 63 - 1) "Z" None None) box_AB = [].
Proof.
  repeat split; discriminate.
Qed.

Lemma insertItem_into_empty_witness :
  0 <= 0 < 2 ^ 63 /\ items empty_box = [] /\ _currentIndex empty_box = -1 /\
  value (insertItem 0 "A" None None) empty_box = Completed /\
  items (after (insertItem 0 "A" None None) empty_box) = [item "A"] /\
  _currentIndex (after (insertItem 0 "A" None None) empty_box) = -1 /\
  widgetText (after (insertItem 0 "A" None None) empty_box) = "" /\
  emitted (insertItem 0 "A" None None) empty_box = [].
Proof.
  assert (0 <= 0 < 2 ^ 63) as P by (split; [discriminate | reflexivity]).
  split; [exact P|]. split; [reflexivity|]. split; [reflexivity|].
  exact (insertItem_into_empty 0 "A" None None empty_box P eq_refl eq_refl).
Defined.

(** C10 also fails above the range of [Py_ssize_t]: [insertItem(2^63,
    "A")] on a fresh widget raises [OverflowError] and inserts nothing. *)
Lemma insertItem_above_ssize_t_into_empty_raises :
  items empty_box = [] /\ _currentIndex empty_box = -1 /\
  value (insertItem (2 ^ 63) "A" None None) empty_box = Raised_OverflowError /\
  after (insertItem (2 ^ 63) "A" None None) empty_box = empty_box /\
  items (after (insertItem (2 ^ 63) "A" None None) empty_box) <> [item "A"].
Proof.
  repeat split. discriminate.
Qed.

(** C10 as the specification states it fails: [insertItem(-1, "A")] on a
    fresh widget puts the item at position 0, and since -1 <= -1 the
    item is selected and both signals are emitted. *)
Lemma insertItem_negative_into_empty_selects :
  items empty_box = [] /\ _currentIndex empty_box = -1 /\
  items (after (insertItem (-1) "A" None None) empty_box) = [item "A"] /\
  _currentIndex (after (insertItem (-1) "A" None None) empty_box) = 0 /\
  _currentIndex (after (insertItem (-1) "A" None None) empty_box) <> -1 /\
  widgetText (after (insertItem (-1) "A" None None) empty_box) = "A" /\
  emitted (insertItem (-1) "A" None None) empty_box =
    [currentTextChanged "A"; currentIndexChanged 0].
Proof.
  repeat split. discriminate.
Qed.

Lemma placement_by_reported_heights_witness :
  items box_A <> [] /\ _currentIndex box_A < PyList.len (items box_A) /\
  map snd (executed (events (_showComboMenu (host_heights 40 100)) box_A))
    = [PULL_UP] /\
  map snd (executed (events (_showComboMenu (host_heights 100 40)) box_A))
    = [DROP_DOWN] /\
  map snd (executed (events (_showComboMenu (host_heights 50 50)) box_A))
    = [DROP_DOWN].
Proof.
  assert (items box_A <> []) as NE by discriminate.
  assert (_currentIndex box_A < PyList.len (items box_A)) as Lt
    by reflexivity.
  split; [exact NE|]. split; [exact Lt|]. split; [|split].
  - destruct (placement_by_reported_heights (host_heights 40 100) box_A NE Lt)
      as (_ & qd & qu & _ & _ & Up).
    apply (proj1 Up). reflexivity.
  - destruct (placement_by_reported_heights (host_heights 100 40) box_A NE Lt)
      as (_ & qd & qu & _ & Down & _).
    apply (proj1 Down). discriminate.
  - destruct (placement_by_reported_heights (host_heights 50 50) box_A NE Lt)
      as (_ & qd & qu & _ & Down & _).
    apply (proj1 Down). discriminate.
Defined.

(** C1 at the failing input: [addItem("A")] and then [removeItem(0)] on
    a fresh widget leave an empty list with current index 0, which is
    neither -1 nor an index into the list. *)
Theorem removeItem_last_breaks_index :
  items (after (run add_A_remove_0) empty_box) = [] /\
  _currentIndex (after (run add_A_remove_0) empty_box) = 0 /\
  index_ok (after (run add_A_remove_0) empty_box) = false.
Proof.
  repeat split.
Qed.

(** C2 at the failing input: [removeItem(0)] on a box whose only item is
    the current one leaves no item and keeps 0 as the current index,
    where -1 is expected. *)
Theorem removeItem_only_item_keeps_index :
  PyList.in_range 0 (items box_A) = true /\ _currentIndex box_A = 0 /\
  items (after (removeItem 0) box_A) = [] /\
  _currentIndex (after (removeItem 0) box_A) = 0 /\
  emitted (removeItem 0) box_A =
    [currentTextChanged ""; currentIndexChanged 0].
Proof.
  repeat split.
Qed.

(** C3 at the failing input: for a widget whose top edge is at ordinate
    100 and whose bottom edge is at 133, both queries are made at the
    bottom-edge point [pd]; the pull-up query is not made at [pu]. With
    a screen of height 253 the oracle answers 120 below [pd] and 133
    above [pd], so the menu pulls up, while above [pu], where the
    pull-up menu is then opened, there is room for 100 only. *)
Theorem pull_up_queried_at_bottom_edge :
  pd_of (host_at 200 100 253) = mkQPoint 202 133 /\
  pu_of (host_at 200 100 253) = mkQPoint 202 100 /\
  queries (events (_showComboMenu (host_at 200 100 253)) box_A) =
    [(mkQPoint 202 133, DROP_DOWN); (mkQPoint 202 133, PULL_UP)] /\
  executed (events (_showComboMenu (host_at 200 100 253)) box_A) =
    [(mkQPoint 202 100, PULL_UP)] /\
  heightForAnimation (host_at 200 100 253) (mkQPoint 202 133) DROP_DOWN
    = 120 /\
  heightForAnimation (host_at 200 100 253) (mkQPoint 202 100) PULL_UP
    = 100.
Proof.
  repeat split.
Qed.

(** The scenarios of the specification. *)
Example scenario_add_three :
  after (addItems ["A"; "B"; "C"]) empty_box = box ["A"; "B"; "C"] 0 "A" /\
  emitted (addItems ["A"; "B"; "C"]) empty_box = [].
Proof. split; reflexivity. Qed.

Example scenario_remove_current :
  after (removeItem 1) box_ABC = box ["A"; "C"] 0 "A" /\
  emitted (removeItem 1) box_ABC =
    [currentTextChanged "A"; currentIndexChanged 0].
Proof. split; reflexivity. Qed.

Example scenario_insert_before :
  after (insertItem 0 "Z" None None) box_AB = box ["Z"; "A"; "B"] 2 "B".
Proof. reflexivity. Qed.

End Concrete.

(** ** More facts about the list operations *)

Module PyListLookup.
Section Facts.
Context {A : Type}.
Implicit Types (l : list A) (x : A) (index j : Z).

Lemma insert_pos_le index l :
  (PyList.insert_pos index l <= List.length l)%nat.
Proof.
  unfold PyList.insert_pos, PyList.len. destruct (index <? 0) eqn:N; lia.
Qed.

Lemma insert_pos_in index l :
  0 <= index <= PyList.len l -> Z.of_nat (PyList.insert_pos index l) = index.
Proof.
  unfold PyList.insert_pos, PyList.len. intros H.
  destruct (index <? 0) eqn:N; [apply Z.ltb_lt in N|]; lia.
Qed.

Lemma getitem_insert_at index x l :
  PyList.getitem (PyList.splice index x l)
    (Z.of_nat (PyList.insert_pos index l)) = Some x.
Proof.
  unfold PyList.getitem, PyList.splice. rewrite Nat2Z.id.
  pose proof (insert_pos_le index l) as Le.
  rewrite nth_error_app2 by (rewrite length_firstn; lia).
  rewrite length_firstn, Nat.min_l, Nat.sub_diag by lia. reflexivity.
Qed.

Lemma getitem_insert_before index x l j :
  0 <= j < Z.of_nat (PyList.insert_pos index l) ->
  PyList.getitem (PyList.splice index x l) j = PyList.getitem l j.
Proof.
  intros H. unfold PyList.getitem, PyList.splice.
  pose proof (insert_pos_le index l) as Le.
  rewrite nth_error_app1 by (rewrite length_firstn; lia).
  rewrite nth_error_firstn.
  assert ((Z.to_nat j <? PyList.insert_pos index l)%nat = true) as ->
    by (apply Nat.ltb_lt; lia).
  reflexivity.
Qed.

Lemma getitem_insert_after index x l j :
  Z.of_nat (PyList.insert_pos index l) <= j ->
  PyList.getitem (PyList.splice index x l) (j + 1) = PyList.getitem l j.
Proof.
  intros H. unfold PyList.getitem, PyList.splice.
  pose proof (insert_pos_le index l) as Le.
  rewrite nth_error_app2 by (rewrite length_firstn; lia).
  rewrite length_firstn, Nat.min_l by lia.
  replace (Z.to_nat (j + 1) - PyList.insert_pos index l)%nat
    with (S (Z.to_nat j - PyList.insert_pos index l)) by lia.
  cbn [nth_error]. rewrite nth_error_skipn. f_equal. lia.
Qed.

Lemma getitem_pop_before index l j :
  0 <= j < index -> PyList.in_range index l = true ->
  PyList.getitem (PyList.pop index l) j = PyList.getitem l j.
Proof.
  intros H R. apply PyListFacts.in_range_iff in R. unfold PyList.len in R.
  unfold PyList.getitem, PyList.pop.
  rewrite nth_error_app1 by (rewrite length_firstn; lia).
  rewrite nth_error_firstn.
  assert ((Z.to_nat j <? Z.to_nat index)%nat = true) as ->
    by (apply Nat.ltb_lt; lia).
  reflexivity.
Qed.

Lemma getitem_pop_after index l j :
  0 <= index <= j -> PyList.in_range index l = true ->
  PyList.getitem (PyList.pop index l) j = PyList.getitem l (j + 1).
Proof.
  intros H R. apply PyListFacts.in_range_iff in R. unfold PyList.len in R.
  unfold PyList.getitem, PyList.pop.
  rewrite nth_error_app2 by (rewrite length_firstn; lia).
  rewrite length_firstn, Nat.min_l by lia.
  rewrite nth_error_skipn. f_equal. lia.
Qed.

Lemma getitem_app_last l x :
  PyList.getitem (l ++ [x]) (PyList.len l) = Some x.
Proof.
  unfold PyList.getitem, PyList.len. rewrite Nat2Z.id.
  rewrite nth_error_app2 by lia. rewrite Nat.sub_diag. reflexivity.
Qed.

Lemma getitem_app_before l x j :
  0 <= j < PyList.len l ->
  PyList.getitem (l ++ [x]) j = PyList.getitem l j.
Proof.
  unfold PyList.getitem, PyList.len. intros H.
  apply nth_error_app1. lia.
Qed.

End Facts.
End PyListLookup.

(** ** Properties of the other methods *)

Section ListProperties.
Context {Icon UserData : Type}.
Implicit Types (w : ComboBoxBase Icon UserData) (index j : Z).

(** The accessors read [item_at], give their empty value when there is no
    item at the index, and leave the widget alone. *)
Lemma accessors_read_item_at {E} j w :
  @itemText _ _ E j w =
    (match item_at w j with Some it => text it | None => EmptyString end,
     w, []) /\
  @itemData _ _ E j w =
    (match item_at w j with Some it => userData it | None => None end,
     w, []) /\
  @itemIcon _ _ E j w =
    (match item_at w j with Some it => icon it | None => None end, w, []).
Proof.
  unfold itemText, itemData, itemIcon, item_at, bind, self, ret.
  destruct (PyList.in_range j (items w)); cbn [negb];
    [destruct (PyList.getitem (items w) j)|]; repeat split.
Qed.

Lemma item_at_items w1 w2 j :
  items w1 = items w2 -> item_at w1 j = item_at w2 j.
Proof. unfold item_at. intros ->. reflexivity. Qed.

Lemma item_at_in_range w j :
  PyList.in_range j (items w) = true ->
  item_at w j = PyList.getitem (items w) j.
Proof. unfold item_at. intros ->. reflexivity. Qed.

Lemma item_at_out_of_range w j :
  PyList.in_range j (items w) = false -> item_at w j = None.
Proof. unfold item_at. intros ->. reflexivity. Qed.

Lemma item_at_Some w j it :
  item_at w j = Some it ->
  PyList.in_range j (items w) = true /\ PyList.getitem (items w) j = Some it.
Proof.
  unfold item_at. destruct (PyList.in_range j (items w)); [|discriminate].
  intros H. split; [reflexivity | exact H].
Qed.

(** What the three mutations leave in the list. *)
Lemma addItem_items t ico data w :
  items (after (addItem t ico data) w) = items w ++ [mkComboItem t data ico].
Proof.
  unfold after. rewrite addItem_eq. cbv zeta.
  set (w1 := with_items w _). destruct (_ =? 1).
  - exact (proj1 (setCurrentIndex_after (E:=Signal) 0 w1)).
  - reflexivity.
Qed.

Lemma insertItem_items index t ico data w :
  PyList.insert_accepts index (items w) = true ->
  value (insertItem index t ico data) w = Completed /\
  items (after (insertItem index t ico data) w) =
    PyList.splice index (mkComboItem t data ico) (items w).
Proof.
  intros Acc. unfold after, value. rewrite insertItem_eq, Acc. cbv zeta.
  set (w1 := with_items w _). destruct (index <=? _); cbn [fst snd].
  - split; [reflexivity|]. exact (proj1 (_onItemClicked_after _ w1)).
  - split; reflexivity.
Qed.

(** A refused index: [OverflowError], and the widget is as it was. *)
Lemma insertItem_refused index t ico data w :
  PyList.insert_accepts index (items w) = false ->
  insertItem index t ico data w = (Raised_OverflowError, w, []).
Proof. intros Ref. rewrite insertItem_eq, Ref. reflexivity. Qed.

Lemma removeItem_items index w :
  PyList.in_range index (items w) = true ->
  items (after (removeItem index) w) = PyList.pop index (items w).
Proof.
  intros R. unfold after. rewrite removeItem_eq, R. cbv zeta.
  set (w1 := with_items w _).
  destruct (index <? _); [exact (proj1 (_onItemClicked_after _ w1))|].
  destruct (index =? _); [|reflexivity].
  destruct (index >? 0); [exact (proj1 (_onItemClicked_after _ w1))|].
  exact (proj1 (setCurrentIndex_after (E:=Signal) 0 w1)).
Qed.

(** X1: [addItem] makes the list one longer, the new item is the last
    one, with the text, icon and user data given, and every item that was
    in the list is where it was. *)
Theorem addItem_lookup t ico data w :
  value (E:=Signal) count (after (addItem t ico data) w) =
    value (E:=Signal) count w + 1 /\
  item_at (after (addItem t ico data) w) (value (E:=Signal) count w) =
    Some (mkComboItem t data ico) /\
  (forall j, j < value (E:=Signal) count w ->
     item_at (after (addItem t ico data) w) j = item_at w j).
Proof.
  pose proof (addItem_items t ico data w) as I.
  unfold value, count, bind, self, ret. cbn [fst snd].
  unfold item_at. rewrite I. rewrite PyListFacts.len_app_one.
  pose proof (PyListFacts.len_nonneg (items w)) as N.
  split; [reflexivity|]. split.
  - assert (PyList.in_range (PyList.len (items w))
              (items w ++ [mkComboItem t data ico]) = true) as ->.
    { apply PyListFacts.in_range_iff. rewrite PyListFacts.len_app_one. lia. }
    apply PyListLookup.getitem_app_last.
  - intros j Lt.
    destruct (PyList.in_range j (items w)) eqn:R.
    + apply PyListFacts.in_range_iff in R.
      assert (PyList.in_range j (items w ++ [mkComboItem t data ico]) = true)
        as ->.
      { apply PyListFacts.in_range_iff. rewrite PyListFacts.len_app_one. lia. }
      apply PyListLookup.getitem_app_before. lia.
    + apply PyListFacts.in_range_false_iff in R.
      assert (PyList.in_range j (items w ++ [mkComboItem t data ico]) = false)
        as ->.
      { apply PyListFacts.in_range_false_iff.
        rewrite PyListFacts.len_app_one. lia. }
      reflexivity.
Qed.

(** X2: [insertItem(index, ...)] with an index that fits a [Py_ssize_t],
    [-2^63 <= index < 2^63], returns and makes the list one longer; the
    new item is at the position where [list.insert] puts it, which is
    [index] itself when [0 <= index <= count]; the items before that
    position are where they were and the items from that position on are
    one further. With an index that does not fit, on a list of at most
    [PY_SSIZE_T_MAX] items, it raises [OverflowError], changes nothing
    and emits nothing. *)
Theorem insertItem_lookup index t ico data w :
  (- 2 ^ 63 <= index < 2 ^ 63 ->
     value (insertItem index t ico data) w = Completed /\
     value (E:=Signal) count (after (insertItem index t ico data) w) =
       value (E:=Signal) count w + 1 /\
     item_at (after (insertItem index t ico data) w)
       (Z.of_nat (PyList.insert_pos index (items w))) =
       Some (mkComboItem t data ico) /\
     (0 <= index <= value (E:=Signal) count w ->
        Z.of_nat (PyList.insert_pos index (items w)) = index) /\
     (forall j, j < Z.of_nat (PyList.insert_pos index (items w)) ->
        item_at (after (insertItem index t ico data) w) j = item_at w j) /\
     (forall j, Z.of_nat (PyList.insert_pos index (items w)) <= j ->
        item_at (after (insertItem index t ico data) w) (j + 1) =
          item_at w j)) /\
  (~ (- 2 ^ 63 <= index < 2 ^ 63) ->
   PyList.len (items w) <= PyList.PY_SSIZE_T_MAX ->
     insertItem index t ico data w = (Raised_OverflowError, w, [])).
Proof.
  split.
  2: { intros Out L. apply insertItem_refused.
       rewrite (PyListFacts.insert_accepts_fits index (items w) L).
       destruct (PyList.fits_ssize_t index) eqn:F; [|reflexivity].
       apply PyListFacts.fits_ssize_t_iff in F. contradiction. }
  intros Fits.
  destruct (insertItem_items index t ico data w
              (PyListFacts.insert_accepts_when_fits index (items w) Fits))
    as [Done I].
  split; [exact Done|].
  unfold value, count, bind, self, ret. cbn [fst snd].
  unfold item_at. rewrite I. rewrite PyListFacts.len_insert.
  pose proof (PyListFacts.len_nonneg (items w)) as N.
  pose proof (PyListLookup.insert_pos_le index (items w)) as Le.
  set (new := mkComboItem t data ico) in *.
  set (p := PyList.insert_pos index (items w)) in *.
  assert (forall k, PyList.in_range k (PyList.splice index new (items w)) =
                    ((0 <=? k) && (k <? PyList.len (items w) + 1))) as RI.
  { intros k. unfold PyList.in_range. rewrite PyListFacts.len_insert.
    reflexivity. }
  split; [reflexivity|]. split; [|split; [|split]].
  - rewrite RI.
    assert ((0 <=? Z.of_nat p) && (Z.of_nat p <? PyList.len (items w) + 1)
            = true) as ->.
    { apply andb_true_iff. rewrite Z.leb_le, Z.ltb_lt.
      unfold PyList.len. lia. }
    apply PyListLookup.getitem_insert_at.
  - apply PyListLookup.insert_pos_in.
  - intros j Lt. rewrite RI. unfold PyList.in_range.
    destruct (0 <=? j) eqn:P; cbn [andb]; [|reflexivity].
    apply Z.leb_le in P.
    assert ((j <? PyList.len (items w) + 1) = true) as ->
      by (apply Z.ltb_lt; unfold PyList.len; lia).
    assert ((j <? PyList.len (items w)) = true) as ->
      by (apply Z.ltb_lt; unfold PyList.len; lia).
    apply PyListLookup.getitem_insert_before. lia.
  - intros j Ge. rewrite RI. unfold PyList.in_range.
    assert ((0 <=? j + 1) = true) as -> by (apply Z.leb_le; lia).
    assert ((0 <=? j) = true) as -> by (apply Z.leb_le; lia).
    cbn [andb].
    destruct (j <? PyList.len (items w)) eqn:Lt.
    + apply Z.ltb_lt in Lt.
      assert ((j + 1 <? PyList.len (items w) + 1) = true) as ->
        by (apply Z.ltb_lt; lia).
      now apply PyListLookup.getitem_insert_after.
    + apply Z.ltb_ge in Lt.
      assert ((j + 1 <? PyList.len (items w) + 1) = false) as ->
        by (apply Z.ltb_ge; lia).
      reflexivity.
Qed.

(** X3: [removeItem(index)] with an index outside [0, count) changes
    nothing and emits nothing; with an index inside it, the list is one
    shorter, the items before [index] are where they were and the items
    after it are one nearer. *)
Theorem removeItem_lookup index w :
  (PyList.in_range index (items w) = false ->
     after (removeItem index) w = w /\ emitted (removeItem index) w = []) /\
  (PyList.in_range index (items w) = true ->
     value (E:=Signal) count (after (removeItem index) w) =
       value (E:=Signal) count w - 1 /\
     (forall j, j < index ->
        item_at (after (removeItem index) w) j = item_at w j) /\
     (forall j, index <= j ->
        item_at (after (removeItem index) w) j = item_at w (j + 1))).
Proof.
  split; intros R.
  - unfold after, emitted, events. rewrite removeItem_eq, R.
    split; reflexivity.
  - pose proof (removeItem_items index w R) as I.
    unfold value, count, bind, self, ret. cbn [fst snd].
    unfold item_at. rewrite I.
    pose proof (PyListFacts.len_pop index (items w) R) as L.
    pose proof R as R'. apply PyListFacts.in_range_iff in R'.
    unfold PyList.in_range. rewrite L.
    split; [reflexivity|]. split.
    + intros j Lt. destruct (0 <=? j) eqn:P; cbn [andb]; [|reflexivity].
      apply Z.leb_le in P.
      assert ((j <? PyList.len (items w) - 1) = true) as ->
        by (apply Z.ltb_lt; lia).
      assert ((j <? PyList.len (items w)) = true) as ->
        by (apply Z.ltb_lt; lia).
      apply PyListLookup.getitem_pop_before; [lia | exact R].
    + intros j Ge.
      assert ((0 <=? j) = true) as -> by (apply Z.leb_le; lia).
      assert ((0 <=? j + 1) = true) as -> by (apply Z.leb_le; lia).
      cbn [andb].
      destruct (j <? PyList.len (items w) - 1) eqn:Lt.
      * apply Z.ltb_lt in Lt.
        assert ((j + 1 <? PyList.len (items w)) = true) as ->
          by (apply Z.ltb_lt; lia).
        apply PyListLookup.getitem_pop_after; [lia | exact R].
      * apply Z.ltb_ge in Lt.
        assert ((j + 1 <? PyList.len (items w)) = false) as ->
          by (apply Z.ltb_ge; lia).
        reflexivity.
Qed.

(** *** The selection and its item *)

(** How [insertItem] runs when it shifts a current index that is an index
    into the list. *)
Lemma insertItem_run_shift index t ico data w it' :
  PyList.insert_accepts index (items w) = true ->
  index <= _currentIndex w ->
  PyList.in_range (_currentIndex w) (items w) = true ->
  PyList.getitem (PyList.splice index (mkComboItem t data ico) (items w))
    (_currentIndex w + 1) = Some it' ->
  insertItem index t ico data w =
    (Completed,
     with_selection
       (with_items w (PyList.splice index (mkComboItem t data ico) (items w)))
       (_currentIndex w + 1) (text it'),
     [currentTextChanged (text it');
      currentIndexChanged (_currentIndex w + 1)]).
Proof.
  intros Acc Le V G. rewrite insertItem_eq, Acc. cbv zeta.
  apply Z.leb_le in Le. rewrite Le.
  set (w1 := with_items w _) in *.
  assert (PyList.in_range (_currentIndex w + 1) (items w1) = true) as R.
  { apply PyListFacts.in_range_iff. apply PyListFacts.in_range_iff in V.
    subst w1. cbn [with_items items]. rewrite PyListFacts.len_insert. lia. }
  assert (_currentIndex w + 1 <> _currentIndex w1) as N.
  { subst w1. cbn [with_items _currentIndex]. lia. }
  unfold after, events.
  rewrite (_onItemClicked_valid _ w1 it' N R G). reflexivity.
Qed.

(** X4: [insertItem(index, ...)] with [0 <= index <= currentIndex], on a
    widget whose current index points at an item, keeps that item
    selected: the current index is one more and the item at it is the
    item that was current. The displayed text becomes that item's text and
    text-changed is emitted with it, then index-changed with the new
    index. *)
Theorem insertItem_keeps_selected_item index t ico data w it :
  item_at w (_currentIndex w) = Some it ->
  0 <= index <= _currentIndex w ->
  _currentIndex (after (insertItem index t ico data) w) = _currentIndex w + 1 /\
  item_at (after (insertItem index t ico data) w) (_currentIndex w + 1) =
    Some it /\
  widgetText (after (insertItem index t ico data) w) = text it /\
  emitted (insertItem index t ico data) w =
    [currentTextChanged (text it); currentIndexChanged (_currentIndex w + 1)].
Proof.
  intros Cur [P Le]. destruct (item_at_Some _ _ _ Cur) as [V G].
  pose proof V as V'. apply PyListFacts.in_range_iff in V'.
  assert (Z.of_nat (PyList.insert_pos index (items w)) = index) as Pos
    by (apply PyListLookup.insert_pos_in; lia).
  assert (PyList.getitem
            (PyList.splice index (mkComboItem t data ico) (items w))
            (_currentIndex w + 1) = Some it) as G'.
  { rewrite PyListLookup.getitem_insert_after by lia. exact G. }
  assert (PyList.insert_accepts index (items w) = true) as Acc
    by (apply PyListFacts.insert_accepts_within; lia).
  unfold after, emitted, events, item_at.
  rewrite (insertItem_run_shift index t ico data w it Acc Le V G').
  cbn [fst snd with_selection with_items items _currentIndex widgetText].
  assert (PyList.in_range (_currentIndex w + 1)
            (PyList.splice index (mkComboItem t data ico) (items w)) = true)
    as ->.
  { apply PyListFacts.in_range_iff. rewrite PyListFacts.len_insert. lia. }
  repeat split. exact G'.
Qed.

(** X5: [insertItem] with a negative index that [list.insert] resolves to
    a position after the current item still adds one to the current index,
    since a negative index is below every current index that points at an
    item. The selection then leaves the item that was current: it is on
    the new item when that was put right after it, and on the old next
    item otherwise. *)
Theorem insertItem_negative_moves_selection index t ico data w :
  PyList.in_range (_currentIndex w) (items w) = true ->
  index < 0 ->
  _currentIndex w < Z.of_nat (PyList.insert_pos index (items w)) ->
  _currentIndex (after (insertItem index t ico data) w) = _currentIndex w + 1 /\
  item_at (after (insertItem index t ico data) w) (_currentIndex w) =
    item_at w (_currentIndex w) /\
  item_at (after (insertItem index t ico data) w) (_currentIndex w + 1) =
    (if _currentIndex w + 1 =? Z.of_nat (PyList.insert_pos index (items w))
     then Some (mkComboItem t data ico)
     else item_at w (_currentIndex w + 1)).
Proof.
  intros V Neg After. pose proof V as V'.
  apply PyListFacts.in_range_iff in V'.
  assert (index <= _currentIndex w) as Le by lia.
  set (new := mkComboItem t data ico).
  assert (PyList.in_range (_currentIndex w + 1)
            (PyList.splice index new (items w)) = true) as R.
  { apply PyListFacts.in_range_iff. rewrite PyListFacts.len_insert. lia. }
  destruct (PyListFacts.getitem_in_range _ _ R) as [it' G'].
  assert (PyList.insert_accepts index (items w) = true) as Acc.
  { apply PyListFacts.insert_accepts_within. revert After.
    unfold PyList.insert_pos.
    assert ((index <? 0) = true) as -> by (apply Z.ltb_lt; lia). lia. }
  unfold after, item_at.
  rewrite (insertItem_run_shift index t ico data w it' Acc Le V G').
  cbn [fst snd with_selection with_items items _currentIndex].
  fold new. rewrite R, V.
  assert (PyList.in_range (_currentIndex w)
            (PyList.splice index new (items w)) = true) as ->.
  { apply PyListFacts.in_range_iff. rewrite PyListFacts.len_insert. lia. }
  split; [reflexivity|]. split.
  - apply PyListLookup.getitem_insert_before. lia.
  - destruct (_ =? _) eqn:E.
    + apply Z.eqb_eq in E. rewrite E.
      apply PyListLookup.getitem_insert_at.
    + apply Z.eqb_neq in E.
      pose proof (PyListLookup.insert_pos_le index (items w)) as PL.
      assert (PyList.in_range (_currentIndex w + 1) (items w) = true) as ->.
      { apply PyListFacts.in_range_iff. unfold PyList.len in *. lia. }
      apply PyListLookup.getitem_insert_before. lia.
Qed.

(** X6: [removeItem(index)] of an item before the current one, on a
    widget whose current index points at an item, keeps that item
    selected: the current index is one less and the item at it is the
    item that was current. Text-changed is emitted with that item's text
    and index-changed with the new index. *)
Theorem removeItem_before_selection index w it :
  item_at w (_currentIndex w) = Some it ->
  0 <= index < _currentIndex w ->
  _currentIndex (after (removeItem index) w) = _currentIndex w - 1 /\
  item_at (after (removeItem index) w) (_currentIndex w - 1) = Some it /\
  widgetText (after (removeItem index) w) = text it /\
  emitted (removeItem index) w =
    [currentTextChanged (text it); currentIndexChanged (_currentIndex w - 1)].
Proof.
  intros Cur [P Lt]. destruct (item_at_Some _ _ _ Cur) as [V G].
  pose proof V as V'. apply PyListFacts.in_range_iff in V'.
  assert (PyList.in_range index (items w) = true) as R
    by (apply PyListFacts.in_range_iff; lia).
  unfold after, emitted, events, item_at. rewrite removeItem_eq, R. cbv zeta.
  assert ((index <? _currentIndex w) = true) as -> by (apply Z.ltb_lt; lia).
  set (w1 := with_items w _).
  assert (PyList.in_range (_currentIndex w - 1) (items w1) = true) as R1.
  { apply PyListFacts.in_range_iff. subst w1. cbn [with_items items].
    rewrite PyListFacts.len_pop by exact R. lia. }
  assert (PyList.getitem (items w1) (_currentIndex w - 1) = Some it) as G1.
  { subst w1. cbn [with_items items].
    rewrite PyListLookup.getitem_pop_after by (try exact R; lia).
    replace (_currentIndex w - 1 + 1) with (_currentIndex w) by lia.
    exact G. }
  assert (_currentIndex w - 1 <> _currentIndex w1) as N.
  { subst w1. cbn [with_items _currentIndex]. lia. }
  rewrite (_onItemClicked_valid _ w1 it N R1 G1).
  cbn [fst snd with_selection items _currentIndex widgetText].
  rewrite R1. repeat split. exact G1.
Qed.

(** X7: [removeItem(index)] of an item after the current index leaves the
    current index, the item at it and the displayed text as they were, and
    emits nothing. *)
Theorem removeItem_after_selection index w :
  PyList.in_range index (items w) = true ->
  _currentIndex w < index ->
  _currentIndex (after (removeItem index) w) = _currentIndex w /\
  item_at (after (removeItem index) w) (_currentIndex w) =
    item_at w (_currentIndex w) /\
  widgetText (after (removeItem index) w) = widgetText w /\
  emitted (removeItem index) w = [].
Proof.
  intros R Lt. pose proof R as R'. apply PyListFacts.in_range_iff in R'.
  unfold after, emitted, events, item_at. rewrite removeItem_eq, R. cbv zeta.
  assert ((index <? _currentIndex w) = false) as -> by (apply Z.ltb_ge; lia).
  assert ((index =? _currentIndex w) = false) as -> by (apply Z.eqb_neq; lia).
  cbn [fst snd with_items items _currentIndex widgetText].
  repeat split.
  unfold PyList.in_range. rewrite (PyListFacts.len_pop _ _ R).
  destruct (0 <=? _currentIndex w) eqn:P; cbn [andb]; [|reflexivity].
  apply Z.leb_le in P.
  assert ((_currentIndex w <? PyList.len (items w) - 1) = true) as ->
    by (apply Z.ltb_lt; lia).
  assert ((_currentIndex w <? PyList.len (items w)) = true) as ->
    by (apply Z.ltb_lt; lia).
  apply PyListLookup.getitem_pop_before; [lia | exact R].
Qed.

(** X8: on a widget whose current index is -1 or an index into the list,
    [removeItem(index)] leaves a current index that is neither exactly
    when it removes the only item of the list and that item is current. *)
Theorem removeItem_index_ok_iff index w :
  index_ok w = true ->
  (index_ok (after (removeItem index) w) = false <->
   index = 0 /\ _currentIndex w = 0 /\ value (E:=Signal) count w = 1).
Proof.
  intros Ok. unfold value, count, bind, self, ret. cbn [fst snd].
  assert (_currentIndex w = -1 \/
          0 <= _currentIndex w < PyList.len (items w)) as Inv.
  { unfold index_ok in Ok. apply orb_true_iff in Ok.
    destruct Ok as [Ok|Ok]; [left; now apply Z.eqb_eq|].
    right. now apply PyListFacts.in_range_iff. }
  assert (forall w', index_ok w' = false <->
                     _currentIndex w' <> -1 /\
                     (_currentIndex w' < 0 \/
                      PyList.len (items w') <= _currentIndex w')) as Bad.
  { intros w'. unfold index_ok. rewrite orb_false_iff, Z.eqb_neq.
    rewrite PyListFacts.in_range_false_iff. reflexivity. }
  rewrite Bad. unfold after. rewrite removeItem_eq.
  destruct (PyList.in_range index (items w)) eqn:R.
  2: { apply PyListFacts.in_range_false_iff in R. cbn [fst snd]. lia. }
  cbv zeta. set (w1 := with_items w _).
  assert (PyList.len (items w1) = PyList.len (items w) - 1) as L1.
  { subst w1. cbn [with_items items]. now apply PyListFacts.len_pop. }
  assert (_currentIndex w1 = _currentIndex w) as C1 by reflexivity.
  apply PyListFacts.in_range_iff in R.
  destruct (index <? _currentIndex w) eqn:Lt.
  { apply Z.ltb_lt in Lt.
    destruct (_onItemClicked_after (_currentIndex w - 1) w1) as [I C].
    unfold after in I, C. rewrite I, C.
    destruct (PyList.in_range (_currentIndex w - 1) (items w1)) eqn:R1.
    - apply PyListFacts.in_range_iff in R1. lia.
    - apply PyListFacts.in_range_false_iff in R1. lia. }
  apply Z.ltb_ge in Lt.
  destruct (index =? _currentIndex w) eqn:Eq.
  2: { apply Z.eqb_neq in Eq. cbn [fst snd]. lia. }
  apply Z.eqb_eq in Eq.
  destruct (index >? 0) eqn:P.
  { rewrite Z.gtb_ltb in P. apply Z.ltb_lt in P.
    destruct (_onItemClicked_after (_currentIndex w - 1) w1) as [I C].
    unfold after in I, C. rewrite I, C.
    destruct (PyList.in_range (_currentIndex w - 1) (items w1)) eqn:R1.
    - apply PyListFacts.in_range_iff in R1. lia.
    - apply PyListFacts.in_range_false_iff in R1. lia. }
  rewrite Z.gtb_ltb in P. apply Z.ltb_ge in P. cbn [fst snd].
  destruct (setCurrentIndex_after (E:=Signal) 0 w1) as [I C].
  rewrite I, C.
  destruct (PyList.in_range 0 (items w1)) eqn:R1.
  - apply PyListFacts.in_range_iff in R1. lia.
  - apply PyListFacts.in_range_false_iff in R1. lia.
Qed.

(** *** Searching *)

(** The first-match loop: from a start index that is not negative, the
    result is -1 when no item satisfies the test, and otherwise the index
    of an item that does while none before it does. *)
Lemma find_first_spec (p : ComboItem Icon UserData -> bool) l : forall i,
  0 <= i ->
  (find_first p i l = -1 /\ forall it, In it l -> p it = false) \/
  (exists n it,
     find_first p i l = i + Z.of_nat n /\
     nth_error l n = Some it /\ p it = true /\
     forall m it', (m < n)%nat -> nth_error l m = Some it' -> p it' = false).
Proof.
  induction l as [|a rest IH]; intros i P; cbn [find_first].
  - left. split; [reflexivity|]. intros it [].
  - destruct (p a) eqn:Pa.
    + right. exists 0%nat, a. repeat split; [lia | assumption |].
      intros m it' Lt. lia.
    + destruct (IH (i + 1) ltac:(lia)) as [[R Absent]|(n & it & R & Nth & Pit & Before)].
      * left. split; [exact R|]. intros it [<-|In']; [exact Pa | now apply Absent].
      * right. exists (S n), it. repeat split; [lia | exact Nth | exact Pit |].
        intros [|m] it' Lt Nth'; cbn [nth_error] in Nth'.
        -- injection Nth' as <-. exact Pa.
        -- apply (Before m it'); [lia | exact Nth'].
Qed.

(** The same in terms of the widget's items. *)
Lemma find_first_items (p : ComboItem Icon UserData -> bool) w :
  (find_first p 0 (items w) = -1 /\
   forall j it, item_at w j = Some it -> p it = false) \/
  (exists it,
     item_at w (find_first p 0 (items w)) = Some it /\ p it = true /\
     forall j it', j < find_first p 0 (items w) ->
                   item_at w j = Some it' -> p it' = false).
Proof.
  destruct (find_first_spec p (items w) 0 ltac:(lia))
    as [[R Absent]|(n & it & R & Nth & Pit & Before)].
  - left. split; [exact R|]. intros j it At.
    destruct (item_at_Some _ _ _ At) as [_ G].
    apply Absent. unfold PyList.getitem in G. eapply nth_error_In. exact G.
  - right. exists it. rewrite R. cbn [Z.add].
    assert (PyList.in_range (Z.of_nat n) (items w) = true) as Rn.
    { apply PyListFacts.in_range_iff. unfold PyList.len.
      assert (n < List.length (items w))%nat
        by (apply nth_error_Some; congruence).
      lia. }
    repeat split.
    + rewrite (item_at_in_range _ _ Rn). unfold PyList.getitem.
      rewrite Nat2Z.id. exact Nth.
    + exact Pit.
    + intros j it' Lt At. destruct (item_at_Some _ _ _ At) as [Rj G].
      apply PyListFacts.in_range_iff in Rj.
      apply (Before (Z.to_nat j) it'); [lia | exact G].
Qed.

Lemma findText_first_match_aux t w :
  (value (E:=Signal) (findText t) w = -1 /\
   forall j it, item_at w j = Some it -> text it <> t) \/
  (exists it,
     item_at w (value (E:=Signal) (findText t) w) = Some it /\
     text it = t /\
     forall j it', j < value (E:=Signal) (findText t) w ->
                   item_at w j = Some it' -> text it' <> t).
Proof.
  unfold value, findText, bind, self, ret. cbn [fst snd].
  destruct (find_first_items (fun it => String.eqb (text it) t) w)
    as [[R Absent]|(it & At & Pit & Before)].
  - left. split; [exact R|]. intros j it At.
    apply String.eqb_neq. exact (Absent j it At).
  - right. exists it. split; [exact At|]. split.
    + apply String.eqb_eq. exact Pit.
    + intros j it' Lt At'. apply String.eqb_neq. exact (Before j it' Lt At').
Qed.

(** X9: [findText(text)] returns -1 when no item has that text, and
    otherwise the lowest index of an item with that text; it does not
    change the widget. *)
Theorem findText_first_match t w :
  after (E:=Signal) (findText t) w = w /\
  ((value (E:=Signal) (findText t) w = -1 /\
    forall j it, item_at w j = Some it -> text it <> t) \/
   (exists it,
      item_at w (value (E:=Signal) (findText t) w) = Some it /\
      text it = t /\
      forall j it', j < value (E:=Signal) (findText t) w ->
                    item_at w j = Some it' -> text it' <> t)).
Proof.
  split; [reflexivity | apply findText_first_match_aux].
Qed.


(** X11: for an item at index [j], [findText] of its text finds an index
    between 0 and [j] whose item has the same text: with duplicate texts
    the earlier item is found. *)
Theorem findText_of_itemText j w it :
  item_at w j = Some it ->
  0 <= value (E:=Signal) (findText (text it)) w <= j /\
  value (E:=Signal) (itemText (value (E:=Signal) (findText (text it)) w)) w
    = text it.
Proof.
  intros At.
  destruct (findText_first_match_aux (text it) w)
    as [[R Absent]|(it0 & At0 & T0 & Before)].
  - exfalso. exact (Absent j it At eq_refl).
  - destruct (item_at_Some _ _ _ At0) as [R0 _].
    apply PyListFacts.in_range_iff in R0.
    split.
    + split; [lia|].
      destruct (Z_le_gt_dec (value (E:=Signal) (findText (text it)) w) j)
        as [Le|Gt]; [exact Le|].
      exfalso. apply (Before j it); [lia | exact At | reflexivity].
    + unfold value at 1.
      rewrite (proj1 (accessors_read_item_at (E:=Signal) _ w)).
      cbn [fst]. rewrite At0. exact T0.
Qed.

(** *** Selecting by text *)

Lemma events_bind {E A B} (m : M Icon UserData E A)
      (k : A -> M Icon UserData E B) w :
  events (bind m k) w = events m w ++ events (k (value m w)) (after m w).
Proof.
  unfold events, after, value, bind. destruct (m w) as [[a w1] e1].
  cbn [fst snd]. destruct (k a w1) as [[b w2] e2]. reflexivity.
Qed.

Lemma setCurrentText_eq {E} t w :
  @setCurrentText _ _ E t w =
    if String.eqb t (value (E:=E) currentText w) then (tt, w, [])
    else if value (E:=E) (findText t) w >=? 0
         then setCurrentIndex (value (E:=E) (findText t) w) w
         else (tt, w, []).
Proof.
  destruct (@currentText_pure _ _ E w) as [shown Run].
  unfold value. cbv [setCurrentText bind]. rewrite Run. cbn [fst snd].
  destruct (String.eqb t shown); [reflexivity|].
  cbv [findText bind self ret]. cbn [fst snd].
  destruct (_ >=? 0); [|reflexivity].
  destruct (setCurrentIndex _ w) as [[[] w2] e2]. reflexivity.
Qed.

(** X12: [setCurrentText(text)] with a text that some item has makes
    [currentText()] return that text, selecting the first item with it
    unless the text is current already; with a text that no item has it
    changes nothing. It never changes the list and never emits a
    signal. *)
Theorem setCurrentText_selects t w :
  emitted (setCurrentText t) w = [] /\
  items (after (E:=Signal) (setCurrentText t) w) = items w /\
  ((exists j it, item_at w j = Some it /\ text it = t) ->
     value (E:=Signal) currentText (after (E:=Signal) (setCurrentText t) w)
       = t /\
     (value (E:=Signal) currentText w <> t ->
        _currentIndex (after (E:=Signal) (setCurrentText t) w) =
          value (E:=Signal) (findText t) w)) /\
  ((forall j it, item_at w j = Some it -> text it <> t) ->
     after (E:=Signal) (setCurrentText t) w = w).
Proof.
  unfold emitted, events, after. rewrite setCurrentText_eq.
  destruct (String.eqb t (value (E:=Signal) currentText w)) eqn:Same.
  { apply String.eqb_eq in Same. cbn [fst snd].
    split; [reflexivity|]. split; [reflexivity|]. split.
    - intros _. split; [symmetry; exact Same|]. intros N. congruence.
    - intros _. reflexivity. }
  apply String.eqb_neq in Same.
  destruct (findText_first_match_aux t w)
    as [[R Absent]|(it0 & At0 & T0 & Before)].
  - rewrite R. change (-1 >=? 0) with false. cbv iota. cbn [fst snd].
    split; [reflexivity|]. split; [reflexivity|]. split.
    + intros (j & it & At & T). exfalso. exact (Absent j it At T).
    + intros _. reflexivity.
  - destruct (item_at_Some _ _ _ At0) as [R0 G0].
    pose proof R0 as R0'. apply PyListFacts.in_range_iff in R0'.
    assert ((value (E:=Signal) (findText t) w >=? 0) = true) as ->.
    { rewrite Z.geb_leb. apply Z.leb_le. lia. }
    rewrite (setCurrentIndex_in_range _ w it0 R0 G0). cbn [fst snd items].
    split; [reflexivity|]. split; [reflexivity|]. split.
    + intros _. split; [|intros _; reflexivity].
      unfold value at 1.
      rewrite (currentText_selected (E:=Signal) _ it0);
        [exact T0 | exact R0 | exact G0 | reflexivity].
    + intros Absent. exfalso. exact (Absent _ it0 At0 T0).
Qed.

(** *** Changing an item in place *)

Lemma update_at_length (f : ComboItem Icon UserData -> ComboItem Icon UserData)
      l : forall n, List.length (update_at n f l) = List.length l.
Proof.
  induction l as [|a rest IH]; intros [|n]; cbn; try reflexivity.
  now rewrite IH.
Qed.

Lemma update_at_same (f : ComboItem Icon UserData -> ComboItem Icon UserData)
      l : forall n,
  nth_error (update_at n f l) n = option_map f (nth_error l n).
Proof.
  induction l as [|a rest IH]; intros [|n]; cbn; try reflexivity.
  apply IH.
Qed.

Lemma update_at_other (f : ComboItem Icon UserData -> ComboItem Icon UserData)
      l : forall n m, n <> m ->
  nth_error (update_at n f l) m = nth_error l m.
Proof.
  induction l as [|a rest IH]; intros [|n] [|m] N; cbn; try reflexivity.
  - contradiction.
  - apply IH. congruence.
Qed.

(** The items after an in-place change of the item at [index]. *)
Lemma item_at_update f index w :
  0 <= index ->
  item_at (with_items w (update_at (Z.to_nat index) f (items w))) index =
    option_map f (item_at w index) /\
  (forall j, j <> index ->
     item_at (with_items w (update_at (Z.to_nat index) f (items w))) j =
       item_at w j) /\
  PyList.len (update_at (Z.to_nat index) f (items w)) = PyList.len (items w).
Proof.
  intros P.
  assert (PyList.len (update_at (Z.to_nat index) f (items w)) =
          PyList.len (items w)) as L.
  { unfold PyList.len. now rewrite update_at_length. }
  unfold item_at, PyList.in_range. cbn [with_items items]. rewrite L.
  repeat split.
  - destruct ((0 <=? index) && (index <? PyList.len (items w)));
      [|reflexivity].
    apply update_at_same.
  - intros j N.
    destruct ((0 <=? j) && (j <? PyList.len (items w))) eqn:R; [|reflexivity].
    apply andb_true_iff in R. destruct R as [Pj _]. apply Z.leb_le in Pj.
    apply update_at_other. lia.
Qed.

Lemma setItemText_eq {E} index t w :
  @setItemText _ _ E index t w =
    if PyList.in_range index (items w) then
      (tt,
       mkComboBoxBase (cls w)
         (update_at (Z.to_nat index)
            (fun it => mkComboItem t (userData it) (icon it)) (items w))
         (_currentIndex w) (_maxVisibleItems w) (dropMenu w)
         (if _currentIndex w =? index then t else widgetText w),
       [])
    else (tt, w, []).
Proof.
  cbv [setItemText bind self ret set_items currentIndex setText].
  destruct (PyList.in_range index (items w)); cbn [negb]; [|reflexivity].
  cbn [_currentIndex]. destruct (_currentIndex w =? index); reflexivity.
Qed.

(** X13: [setItemText(index, text)] with an index outside [0, count)
    changes nothing; with an index inside it, the item at [index] gets the
    new text and keeps its icon and user data, every other item, the
    length of the list and the current index are as they were, and the
    displayed text becomes the new text exactly when [index] is the
    current index. In no case is a signal emitted. *)
Theorem setItemText_effect index t w :
  emitted (setItemText index t) w = [] /\
  (PyList.in_range index (items w) = false ->
     after (E:=Signal) (setItemText index t) w = w) /\
  (forall it, item_at w index = Some it ->
     item_at (after (E:=Signal) (setItemText index t) w) index =
       Some (mkComboItem t (userData it) (icon it)) /\
     (forall j, j <> index ->
        item_at (after (E:=Signal) (setItemText index t) w) j = item_at w j) /\
     value (E:=Signal) count (after (E:=Signal) (setItemText index t) w) =
       value (E:=Signal) count w /\
     _currentIndex (after (E:=Signal) (setItemText index t) w) =
       _currentIndex w /\
     widgetText (after (E:=Signal) (setItemText index t) w) =
       if _currentIndex w =? index then t else widgetText w).
Proof.
  unfold emitted, events, after. rewrite setItemText_eq.
  destruct (PyList.in_range index (items w)) eqn:R; cbn [fst snd].
  - split; [reflexivity|]. split; [discriminate|]. intros it At.
    set (f := fun it : ComboItem Icon UserData =>
                mkComboItem t (userData it) (icon it)).
    assert (0 <= index) as P by (apply PyListFacts.in_range_iff in R; lia).
    destruct (item_at_update f index w P) as (Same & Other & L).
    set (w' := mkComboBoxBase _ _ _ _ _ _).
    assert (items w' = items (with_items w
                                (update_at (Z.to_nat index) f (items w))))
      as I by reflexivity.
    split; [|split; [|split; [|split]]].
    + rewrite (item_at_items w' _ index I), Same, At. reflexivity.
    + intros j N. rewrite (item_at_items w' _ j I). now apply Other.
    + unfold value, count, bind, self, ret. cbn [fst snd]. exact L.
    + reflexivity.
    + reflexivity.
  - split; [reflexivity|]. split; [reflexivity|].
    intros it At. rewrite (item_at_out_of_range _ _ R) in At. discriminate.
Qed.

(** X14: [setItemData(index, value)] and [setItemIcon(index, icon)] with
    an index inside [0, count) replace the user data, or the icon, of the
    item at [index] and nothing else of it; with an index outside they
    change nothing. Either way the other items, the current index and the
    displayed text are as they were and no signal is emitted. *)
Theorem setItemData_setItemIcon_effect index v ico w :
  (emitted (setItemData index v) w = [] /\
   item_at (after (E:=Signal) (setItemData index v) w) index =
     option_map (fun it => mkComboItem (text it) v (icon it))
                (item_at w index) /\
   (forall j, j <> index ->
      item_at (after (E:=Signal) (setItemData index v) w) j = item_at w j) /\
   _currentIndex (after (E:=Signal) (setItemData index v) w) =
     _currentIndex w /\
   widgetText (after (E:=Signal) (setItemData index v) w) = widgetText w) /\
  (emitted (setItemIcon index ico) w = [] /\
   item_at (after (E:=Signal) (setItemIcon index ico) w) index =
     option_map (fun it => mkComboItem (text it) (userData it) ico)
                (item_at w index) /\
   (forall j, j <> index ->
      item_at (after (E:=Signal) (setItemIcon index ico) w) j = item_at w j) /\
   _currentIndex (after (E:=Signal) (setItemIcon index ico) w) =
     _currentIndex w /\
   widgetText (after (E:=Signal) (setItemIcon index ico) w) = widgetText w).
Proof.
  unfold emitted, events, after.
  cbv [setItemData setItemIcon bind self ret set_items].
  destruct (PyList.in_range index (items w)) eqn:R; cbn [fst snd].
  - assert (0 <= index) as P by (apply PyListFacts.in_range_iff in R; lia).
    split.
    + destruct (item_at_update
                  (fun it => mkComboItem (text it) v (icon it)) index w P)
        as (Same & Other & _).
      repeat split; [exact Same | exact Other].
    + destruct (item_at_update
                  (fun it => mkComboItem (text it) (userData it) ico) index w P)
        as (Same & Other & _).
      repeat split; [exact Same | exact Other].
  - rewrite (item_at_out_of_range _ _ R). repeat split.
Qed.

(** *** Clearing and adding several *)

(** How [addItem] runs: silently, selecting the item when it is the only
    one. *)
Lemma addItem_run t ico data w :
  addItem t ico data w =
    (tt,
     match items w with
     | [] => with_selection (with_items w [mkComboItem t data ico]) 0 t
     | _ :: _ => with_items w (items w ++ [mkComboItem t data ico])
     end,
     []).
Proof.
  rewrite addItem_eq. cbv zeta. cbn [with_items items].
  rewrite PyListFacts.len_app_one.
  destruct (items w) as [|a rest] eqn:I.
  - cbn [app]. change (PyList.len [] + 1 =? 1) with true. cbv iota.
    apply (setCurrentIndex_in_range (E:=Signal) 0
             (with_items w [mkComboItem t data ico]) (mkComboItem t data ico));
      reflexivity.
  - assert ((PyList.len (a :: rest) + 1 =? 1) = false) as ->.
    { apply Z.eqb_neq. unfold PyList.len. cbn [List.length]. lia. }
    reflexivity.
Qed.

(** X15: [clear()] empties the list and sets the current index to -1
    without emitting a signal; it empties the displayed text when the
    current index was 0 or more and leaves it otherwise. An [addItem]
    after it selects and displays the added item. *)
Theorem clear_then_addItem t ico data w :
  emitted clear w = [] /\
  items (after clear w) = [] /\
  _currentIndex (after clear w) = -1 /\
  widgetText (after clear w) =
    (if _currentIndex w >=? 0 then EmptyString else widgetText w) /\
  items (after (addItem t ico data) (after clear w)) =
    [mkComboItem t data ico] /\
  _currentIndex (after (addItem t ico data) (after clear w)) = 0 /\
  widgetText (after (addItem t ico data) (after clear w)) = t.
Proof.
  assert (items (after clear w) = []) as Emp.
  { unfold after. cbv [clear bind currentIndex self ret].
    destruct (_currentIndex w >=? 0); reflexivity. }
  unfold after at 4 6 8. rewrite addItem_run, Emp. cbn [fst snd].
  unfold emitted, events, after. cbv [clear bind currentIndex self ret].
  destruct (_currentIndex w >=? 0); repeat split.
Qed.

(** X16: [addItems(texts)] appends one item per text, in order, with no
    icon and no user data, and emits no signal. On a widget that has
    items it leaves the current index and the displayed text as they
    were; on a widget without items it selects and displays the first of
    the texts. *)
Theorem addItems_effect texts : forall w,
  emitted (addItems texts) w = [] /\
  items (after (addItems texts) w) =
    items w ++ map (fun t => mkComboItem t None None) texts /\
  (items w <> [] ->
     _currentIndex (after (addItems texts) w) = _currentIndex w /\
     widgetText (after (addItems texts) w) = widgetText w) /\
  (items w = [] -> forall t rest, texts = t :: rest ->
     _currentIndex (after (addItems texts) w) = 0 /\
     widgetText (after (addItems texts) w) = t).
Proof.
  induction texts as [|t rest IH]; intros w.
  - cbn [addItems map]. rewrite app_nil_r.
    split; [reflexivity|]. split; [reflexivity|]. split.
    + intros _. split; reflexivity.
    + intros _ t rest E. discriminate.
  - cbn [addItems map]. unfold emitted in *. rewrite events_bind, after_bind.
    set (w1 := match items w with
               | [] => with_selection
                         (with_items w [mkComboItem t None None]) 0 t
               | _ :: _ => with_items w (items w ++ [mkComboItem t None None])
               end).
    assert (after (addItem t None None) w = w1) as ->
      by (unfold after; rewrite addItem_run; reflexivity).
    assert (events (addItem t None None) w = []) as ->
      by (unfold events; rewrite addItem_run; reflexivity).
    cbn [app].
    assert (items w1 = items w ++ [mkComboItem t None None]) as I1.
    { subst w1. destruct (items w); reflexivity. }
    assert (items w1 <> []) as NE1.
    { rewrite I1. intros E. symmetry in E. now apply app_cons_not_nil in E. }
    destruct (IH w1) as (Em & It & Keep & _).
    destruct (Keep NE1) as [C T].
    split; [exact Em|]. split.
    + rewrite It, I1, <- app_assoc. reflexivity.
    + rewrite C, T. split.
      * intros NE. subst w1. destruct (items w); [contradiction|].
        split; reflexivity.
      * intros Emp t' rest' E. injection E as <- <-.
        subst w1. rewrite Emp. split; reflexivity.
Qed.

(** *** Inserting several *)

Lemma firstn_skipn_of_app {A} (pre suf : list A) :
  firstn (List.length pre) (pre ++ suf) = pre /\
  skipn (List.length pre) (pre ++ suf) = suf.
Proof.
  induction pre as [|a pre IH]; cbn; [split; reflexivity|].
  destruct IH as [F S]. rewrite F, S. split; reflexivity.
Qed.

(** The loop of [insertItems] from a position that is not negative, when
    every position it reaches fits a [Py_ssize_t] or lies in the list:
    the new items go, in order, where the first one goes. *)
Lemma insertItems_loop_run texts : forall pos pre suf w,
  0 <= pos ->
  pos + PyList.len texts <= 2 ^ 63 \/ pos <= PyList.len (pre ++ suf) ->
  items w = pre ++ suf ->
  PyList.insert_pos pos (pre ++ suf) = List.length pre ->
  insertItems_loop pos texts w =
    (Some (pos + PyList.len texts),
     with_items w (pre ++ map (fun t => mkComboItem t None None) texts ++ suf),
     []).
Proof.
  induction texts as [|t rest IH]; intros pos pre suf w P Fit I Pos.
  - cbn [insertItems_loop map app]. unfold ret, PyList.len. cbn [List.length].
    rewrite Z.add_0_r, <- I. destruct w; reflexivity.
  - cbn [insertItems_loop]. cbv [bind self].
    assert (PyList.insert_accepts pos (items w) = true) as Acc.
    { rewrite I. destruct Fit as [Fit|Fit].
      - apply PyListFacts.insert_accepts_when_fits.
        pose proof (PyListFacts.len_nonneg rest) as Nr.
        unfold PyList.len in *. cbn [List.length] in Fit. lia.
      - apply PyListFacts.insert_accepts_within.
        pose proof (PyListFacts.len_nonneg (pre ++ suf)). lia. }
    rewrite (PyListFacts.insert_accepted pos _ (items w) Acc).
    cbv [bind set_items].
    set (w1 := mkComboBoxBase _ _ _ _ _ _).
    assert (items w1 = (pre ++ [mkComboItem t None None]) ++ suf) as I1.
    { subst w1. cbn [items]. rewrite I. unfold PyList.splice. rewrite Pos.
      destruct (firstn_skipn_of_app pre suf) as [F S]. rewrite F, S.
      rewrite <- app_assoc. reflexivity. }
    assert (PyList.insert_pos (pos + 1)
              ((pre ++ [mkComboItem t None None]) ++ suf) =
            List.length (pre ++ [mkComboItem t None None])) as Pos1.
    { revert Pos. unfold PyList.insert_pos, PyList.len.
      rewrite !length_app. cbn [List.length].
      assert ((pos <? 0) = false) as -> by (apply Z.ltb_ge; lia).
      assert ((pos + 1 <? 0) = false) as -> by (apply Z.ltb_ge; lia).
      lia. }
    assert (pos + 1 + PyList.len rest <= 2 ^ 63 \/
            pos + 1 <= PyList.len ((pre ++ [mkComboItem t None None]) ++ suf))
      as Fit1.
    { destruct Fit as [Fit|Fit]; [left|right].
      - unfold PyList.len in *. cbn [List.length] in Fit. lia.
      - unfold PyList.len in *. rewrite !length_app in *.
        cbn [List.length]. lia. }
    rewrite (IH (pos + 1) _ suf w1 ltac:(lia) Fit1 I1 Pos1).
    cbn [map app]. apply f_equal2; [apply f_equal2|reflexivity].
    + f_equal. unfold PyList.len. cbn [List.length]. lia.
    + subst w1. unfold with_items. cbn [cls _currentIndex _maxVisibleItems
                                          dropMenu widgetText].
      rewrite <- !app_assoc. reflexivity.
Qed.

Lemma insertItems_eq index texts w :
  insertItems index texts w =
    let w1 := after (insertItems_loop index texts) w in
    match value (insertItems_loop index texts) w with
    | None => (Raised_OverflowError, w1, events (insertItems_loop index texts) w)
    | Some pos =>
        if index <=? _currentIndex w1
        then (Completed,
              after (_onItemClicked (_currentIndex w1 + pos - index)) w1,
              events (insertItems_loop index texts) w ++
              events (_onItemClicked (_currentIndex w1 + pos - index)) w1)
        else (Completed, w1, events (insertItems_loop index texts) w)
    end.
Proof.
  unfold after, value, events. cbv [insertItems bind].
  destruct (insertItems_loop index texts w) as [[[pos|] w1] e1]; cbn [fst snd].
  - cbv [currentIndex bind self ret]. cbn [fst snd].
    destruct (index <=? _currentIndex w1).
    + destruct (_onItemClicked _ w1) as [[[] w2] e2]. cbn [fst snd].
      rewrite !app_nil_r. reflexivity.
    + cbn [app]. rewrite !app_nil_r. reflexivity.
  - unfold ret. rewrite app_nil_r. reflexivity.
Qed.

(** X17: [insertItems(index, texts)] with [index >= 0] and every position
    up to [index + len(texts) - 1] fitting a [Py_ssize_t] returns, having
    put one item per text, in order and with no icon and no user data, at
    position [min(index, count)]: the items before that position stay in
    front of them and the others follow them. *)
Theorem insertItems_content index texts w :
  0 <= index -> index + PyList.len texts <= 2 ^ 63 ->
  value (insertItems index texts) w = Completed /\
  items (after (insertItems index texts) w) =
    firstn (Z.to_nat index) (items w) ++
    map (fun t => mkComboItem t None None) texts ++
    skipn (Z.to_nat index) (items w).
Proof.
  intros P Fit.
  set (pre := firstn (Z.to_nat index) (items w)).
  set (suf := skipn (Z.to_nat index) (items w)).
  assert (items w = pre ++ suf) as I
    by (subst pre suf; symmetry; apply firstn_skipn).
  assert (PyList.insert_pos index (pre ++ suf) = List.length pre) as Pos.
  { rewrite <- I. subst pre. rewrite length_firstn.
    unfold PyList.insert_pos, PyList.len.
    assert ((index <? 0) = false) as -> by (apply Z.ltb_ge; lia). lia. }
  pose proof (insertItems_loop_run texts index pre suf w P (or_introl Fit)
                I Pos) as Run.
  assert (after (insertItems_loop index texts) w =
          with_items w
            (pre ++ map (fun t => mkComboItem t None None) texts ++ suf)) as A
    by (unfold after; rewrite Run; reflexivity).
  assert (value (insertItems_loop index texts) w =
          Some (index + PyList.len texts)) as Vl
    by (unfold value; rewrite Run; reflexivity).
  unfold after at 1, value at 1. rewrite insertItems_eq. cbv zeta.
  rewrite A, Vl.
  destruct (index <=? _); cbn [fst snd].
  - split; [reflexivity|].
    rewrite (proj1 (_onItemClicked_after _ _)). reflexivity.
  - split; reflexivity.
Qed.

(** [insertItems] stops at the first position that [list.insert]
    refuses: from [2^63 - 1], at the end of a two-item list, the first
    text is inserted and the second raises [OverflowError]; the current
    index is not shifted and nothing is emitted. *)
Lemma insertItems_raises_midway :
  insertItems (2 ^ 63 - 1) ["X"%string; "Y"%string] Examples.box_AB =
    (Raised_OverflowError,
     Examples.box ["A"%string; "B"%string; "X"%string] 1 "B"%string,
     []).
Proof. reflexivity. Qed.

(** X18: [insertItems(index, texts)] with [0 <= index <= currentIndex],
    on a widget whose current index points at an item, keeps that item
    selected: the current index grows by the number of texts and the item
    at it is the item that was current. With no text at all nothing is
    emitted; otherwise text-changed is emitted with that item's text and
    then index-changed with the new index. *)
Theorem insertItems_keeps_selected_item index texts w it :
  item_at w (_currentIndex w) = Some it ->
  0 <= index <= _currentIndex w ->
  _currentIndex (after (insertItems index texts) w) =
    _currentIndex w + PyList.len texts /\
  item_at (after (insertItems index texts) w)
    (_currentIndex w + PyList.len texts) = Some it /\
  emitted (insertItems index texts) w =
    match texts with
    | [] => []
    | _ :: _ => [currentTextChanged (text it);
                 currentIndexChanged (_currentIndex w + PyList.len texts)]
    end.
Proof.
  intros Cur [P Le]. destruct (item_at_Some _ _ _ Cur) as [V G].
  pose proof V as V'. apply PyListFacts.in_range_iff in V'.
  unfold PyList.len in V'.
  set (n := PyList.len texts).
  set (new := map (fun t : string => @mkComboItem Icon UserData t None None)
                  texts).
  set (pre := firstn (Z.to_nat index) (items w)).
  set (suf := skipn (Z.to_nat index) (items w)).
  assert (items w = pre ++ suf) as I
    by (subst pre suf; symmetry; apply firstn_skipn).
  assert (List.length pre = Z.to_nat index) as Lpre
    by (subst pre; rewrite length_firstn; lia).
  assert (List.length new = List.length texts) as Lnew
    by (subst new; apply length_map).
  assert (PyList.insert_pos index (pre ++ suf) = List.length pre) as Pos.
  { rewrite <- I, Lpre. unfold PyList.insert_pos, PyList.len.
    assert ((index <? 0) = false) as -> by (apply Z.ltb_ge; lia). lia. }
  assert (index + PyList.len texts <= 2 ^ 63 \/
          index <= PyList.len (pre ++ suf)) as Fit.
  { right. rewrite <- I. unfold PyList.len. lia. }
  pose proof (insertItems_loop_run texts index pre suf w P Fit I Pos) as Run.
  fold new in Run. set (w1 := with_items w (pre ++ new ++ suf)) in *.
  assert (after (insertItems_loop index texts) w = w1) as A
    by (unfold after; rewrite Run; reflexivity).
  assert (value (insertItems_loop index texts) w = Some (index + n)) as Vl
    by (unfold value; rewrite Run; reflexivity).
  assert (events (insertItems_loop index texts) w = []) as Ev
    by (unfold events; rewrite Run; reflexivity).
  assert (PyList.getitem (items w1) (_currentIndex w + n) = Some it) as G1.
  { subst w1. cbn [with_items items]. unfold PyList.getitem in *.
    subst n. unfold PyList.len.
    rewrite nth_error_app2 by lia.
    rewrite nth_error_app2 by lia.
    subst suf. rewrite nth_error_skipn. rewrite <- G. f_equal. lia. }
  assert (PyList.in_range (_currentIndex w + n) (items w1) = true) as R1.
  { apply PyListFacts.in_range_iff. subst w1 n. cbn [with_items items].
    unfold PyList.len. rewrite !length_app, Lnew.
    assert (List.length (items w) = List.length pre + List.length suf)%nat
      by (rewrite I at 1; apply length_app).
    lia. }
  unfold after, emitted, events. rewrite insertItems_eq. cbv zeta.
  rewrite A, Vl, Ev.
  assert (_currentIndex w1 = _currentIndex w) as -> by reflexivity.
  assert ((index <=? _currentIndex w) = true) as -> by (apply Z.leb_le; lia).
  replace (_currentIndex w + (index + n) - index) with (_currentIndex w + n)
    by lia.
  cbn [fst snd app].
  destruct texts as [|t rest].
  - subst n. change (PyList.len (@nil string)) with 0 in *.
    rewrite Z.add_0_r in *.
    unfold after, events.
    rewrite (_onItemClicked_same (_currentIndex w) w1 eq_refl).
    cbn [fst snd]. split; [reflexivity|]. split; [|reflexivity].
    unfold item_at. rewrite R1. exact G1.
  - assert (_currentIndex w + n <> _currentIndex w1) as N.
    { subst n w1. cbn [with_items _currentIndex]. unfold PyList.len.
      cbn [List.length]. lia. }
    unfold after, events.
    rewrite (_onItemClicked_valid _ w1 it N R1 G1).
    cbn [fst snd with_selection _currentIndex].
    split; [reflexivity|]. split; [|reflexivity].
    unfold item_at. cbn [items]. rewrite R1. exact G1.
Qed.

(** *** The line edit of the editable combo box *)

Lemma _onTextEdited_loop_run t (l : list (ComboItem Icon UserData)) :
  forall i w, 0 <= i ->
  _onTextEdited_loop t i l w =
    if find_first (fun it => String.eqb (text it) t) i l =? -1
    then (tt, w, [])
    else (tt,
          mkComboBoxBase (cls w) (items w)
            (find_first (fun it => String.eqb (text it) t) i l)
            (_maxVisibleItems w) (dropMenu w) (widgetText w),
          [currentIndexChanged
             (find_first (fun it => String.eqb (text it) t) i l)]).
Proof.
  induction l as [|a rest IH]; intros i w P;
    cbn [_onTextEdited_loop find_first].
  - reflexivity.
  - destruct (String.eqb (text a) t).
    + assert ((i =? -1) = false) as -> by (apply Z.eqb_neq; lia).
      reflexivity.
    + apply IH. lia.
Qed.

(** X19: [_onTextEdited(text)] emits text-changed with the text, sets the
    current index to what [findText(text)] gives, that is to the first
    item with this text or to -1, and emits index-changed with it when an
    item was found. It changes neither the list nor the displayed text,
    and the current index it leaves is -1 or an index into the list,
    whatever it was before. *)
Theorem _onTextEdited_effect t w :
  items (after (_onTextEdited t) w) = items w /\
  widgetText (after (_onTextEdited t) w) = widgetText w /\
  _currentIndex (after (_onTextEdited t) w) = value (E:=Signal) (findText t) w /\
  emitted (_onTextEdited t) w =
    currentTextChanged t ::
    (if value (E:=Signal) (findText t) w =? -1 then []
     else [currentIndexChanged (value (E:=Signal) (findText t) w)]) /\
  index_ok (after (_onTextEdited t) w) = true.
Proof.
  pose proof (findText_first_match_aux t w) as Found.
  unfold value, findText in *. cbv [bind self ret] in Found |- *.
  cbn [fst snd] in Found |- *.
  unfold emitted, events, after.
  cbv [_onTextEdited bind set__currentIndex emit log self].
  cbn [items].
  rewrite (_onTextEdited_loop_run t (items w) 0 _ ltac:(lia)).
  set (r := find_first (fun it => String.eqb (text it) t) 0 (items w)) in *.
  destruct (r =? -1) eqn:E; cbn [fst snd items widgetText _currentIndex app].
  - apply Z.eqb_eq in E. repeat split. symmetry. exact E.
  - repeat split. unfold index_ok. cbn [_currentIndex items].
    destruct Found as [[R _]|(it & At & _)].
    + apply Z.eqb_neq in E. contradiction.
    + destruct (item_at_Some _ _ _ At) as [Rg _]. rewrite Rg.
      apply orb_true_r.
Qed.

Lemma find_first_app_absent (p : ComboItem Icon UserData -> bool) x l :
  forall i,
  (forall it, In it l -> p it = false) -> p x = true ->
  find_first p i (l ++ [x]) = i + PyList.len l.
Proof.
  induction l as [|a rest IH]; intros i Absent Px; cbn [app find_first].
  - rewrite Px. unfold PyList.len. cbn. lia.
  - rewrite (Absent a (or_introl eq_refl)).
    rewrite IH; [|intros it In'; apply Absent; now right | exact Px].
    unfold PyList.len. cbn [List.length]. lia.
Qed.

Lemma _onReturnPressed_eq w :
  _onReturnPressed w =
    if String.eqb (widgetText w) EmptyString then (tt, w, [])
    else
      let r := value (E:=Signal) (findText (widgetText w)) w in
      if (r >=? 0) && negb (r =? _currentIndex w) then
        (tt,
         mkComboBoxBase (cls w) (items w) r (_maxVisibleItems w) (dropMenu w)
           (widgetText w),
         [currentIndexChanged r])
      else if r =? -1 then
        (tt,
         mkComboBoxBase (cls w)
           (items w ++ [mkComboItem (widgetText w) None None])
           (PyList.len (items w)) (_maxVisibleItems w) (dropMenu w)
           (widgetText w),
         [])
      else (tt, w, []).
Proof.
  cbv [_onReturnPressed bind widget_text findText currentIndex self ret value].
  cbn [fst snd].
  destruct (String.eqb (widgetText w) EmptyString); [reflexivity|].
  set (r := find_first _ 0 (items w)).
  destruct ((r >=? 0) && negb (r =? _currentIndex w)); [reflexivity|].
  destruct (r =? -1); [|reflexivity].
  rewrite addItem_run. cbv [count bind self ret]. cbn [fst snd].
  set (new := @mkComboItem Icon UserData (widgetText w) None None).
  set (w1 := match items w with
             | [] => with_selection (with_items w [new]) 0 (widgetText w)
             | _ :: _ => with_items w (items w ++ [new])
             end).
  assert (items w1 = items w ++ [new]) as I1
    by (subst w1; destruct (items w); reflexivity).
  assert (PyList.len (items w1) - 1 = PyList.len (items w)) as L1
    by (rewrite I1, PyListFacts.len_app_one; lia).
  pose proof (PyListFacts.len_nonneg (items w)) as Nn.
  assert (PyList.in_range (PyList.len (items w)) (items w1) = true) as R1.
  { apply PyListFacts.in_range_iff. rewrite I1, PyListFacts.len_app_one. lia. }
  assert (PyList.getitem (items w1) (PyList.len (items w)) = Some new)
    as G1 by (rewrite I1; apply PyListLookup.getitem_app_last).
  rewrite L1.
  rewrite (setCurrentIndex_in_range (E:=Signal) _ w1 new R1 G1).
  rewrite I1. subst w1. destruct (items w); reflexivity.
Qed.

(** X20: [_onReturnPressed()] with an empty line edit does nothing. With
    a text in it, the widget afterwards has a current index that points
    at an item with this text, the first one in the list, and the text in
    the line edit is as it was. When no item had the text, one is
    appended for it and nothing is emitted; when one had it, the list is
    as it was and index-changed is emitted unless that item was current
    already. *)
Theorem _onReturnPressed_effect w :
  (widgetText w = EmptyString ->
     after _onReturnPressed w = w /\ emitted _onReturnPressed w = []) /\
  (widgetText w <> EmptyString ->
     widgetText (after _onReturnPressed w) = widgetText w /\
     (exists it,
        item_at (after _onReturnPressed w)
          (_currentIndex (after _onReturnPressed w)) = Some it /\
        text it = widgetText w) /\
     _currentIndex (after _onReturnPressed w) =
       value (E:=Signal) (findText (widgetText w)) (after _onReturnPressed w) /\
     (value (E:=Signal) (findText (widgetText w)) w = -1 ->
        items (after _onReturnPressed w) =
          items w ++ [mkComboItem (widgetText w) None None] /\
        emitted _onReturnPressed w = []) /\
     (value (E:=Signal) (findText (widgetText w)) w <> -1 ->
        items (after _onReturnPressed w) = items w /\
        emitted _onReturnPressed w =
          if value (E:=Signal) (findText (widgetText w)) w =? _currentIndex w
          then []
          else [currentIndexChanged
                  (value (E:=Signal) (findText (widgetText w)) w)])).
Proof.
  unfold after, emitted, events. rewrite _onReturnPressed_eq. split.
  - intros Emp. rewrite Emp. split; reflexivity.
  - intros NE. apply String.eqb_neq in NE. rewrite NE. cbv zeta.
    set (t := widgetText w) in *.
    destruct (findText_first_match_aux t w)
      as [[R Absent]|(it & At & Tit & Before)].
    + (* no item has the text: one is appended and selected *)
      rewrite R.
      change ((-1 >=? 0) && negb (-1 =? _currentIndex w)) with false.
      change (-1 =? -1) with true. cbv iota.
      cbn [fst snd items _currentIndex widgetText].
      set (new := @mkComboItem Icon UserData t None None).
      pose proof (PyListFacts.len_nonneg (items w)) as Nn.
      assert (PyList.in_range (PyList.len (items w)) (items w ++ [new]) = true)
        as R1.
      { apply PyListFacts.in_range_iff. rewrite PyListFacts.len_app_one. lia. }
      set (p := fun it : ComboItem Icon UserData => String.eqb (text it) t).
      assert (forall it, In it (items w) -> p it = false) as AbsentIn.
      { intros it In'. destruct (In_nth_error _ _ In') as [n Nth].
        subst p. cbv beta. apply String.eqb_neq.
        apply (Absent (Z.of_nat n) it). unfold item_at.
        assert (PyList.in_range (Z.of_nat n) (items w) = true) as ->.
        { apply PyListFacts.in_range_iff. unfold PyList.len.
          assert (n < List.length (items w))%nat
            by (apply nth_error_Some; congruence).
          lia. }
        unfold PyList.getitem. rewrite Nat2Z.id. exact Nth. }
      assert (p new = true) as Pnew
        by (subst p new; cbn [text]; apply String.eqb_refl).
      split; [reflexivity|]. split; [|split; [|split]].
      * exists new. split; [|reflexivity].
        unfold item_at. cbn [items]. rewrite R1.
        apply PyListLookup.getitem_app_last.
      * unfold value, findText, bind, self, ret. cbn [fst snd items].
        fold p. rewrite (find_first_app_absent p new (items w) 0 AbsentIn Pnew).
        lia.
      * intros _. split; reflexivity.
      * intros N. contradiction.
    + (* an item has the text *)
      set (r := value (E:=Signal) (findText t) w) in *.
      destruct (item_at_Some _ _ _ At) as [Rr Gr].
      pose proof Rr as Rr'. apply PyListFacts.in_range_iff in Rr'.
      assert ((r >=? 0) = true) as ->
        by (rewrite Z.geb_leb; apply Z.leb_le; lia).
      assert ((r =? -1) = false) as Rn by (apply Z.eqb_neq; lia).
      cbn [andb].
      destruct (r =? _currentIndex w) eqn:Same; cbn [negb].
      * rewrite Rn. cbn [fst snd]. apply Z.eqb_eq in Same.
        split; [reflexivity|]. split; [|split; [|split]].
        -- exists it. rewrite <- Same. split; [exact At | exact Tit].
        -- symmetry. exact Same.
        -- intros E. lia.
        -- intros _. split; reflexivity.
      * cbn [fst snd items _currentIndex widgetText].
        split; [reflexivity|]. split; [|split; [|split]].
        -- exists it. split; [|exact Tit].
           unfold item_at in *. cbn [items]. exact At.
        -- reflexivity.
        -- intros E. lia.
        -- intros _. split; reflexivity.
Qed.

(** *** The current item *)

(** X21: after [setCurrentIndex(index)] with an index that points at an
    item, [currentText()] is the text of that item and [currentData()] is
    its user data, for the plain and for the editable combo box. *)
Theorem setCurrentIndex_then_current index w it :
  item_at w index = Some it ->
  value (E:=Signal) currentText
    (after (E:=Signal) (setCurrentIndex index) w) = text it /\
  value (E:=Signal) currentData
    (after (E:=Signal) (setCurrentIndex index) w) = userData it.
Proof.
  intros At. destruct (item_at_Some _ _ _ At) as [R G].
  unfold after. rewrite (setCurrentIndex_in_range _ w it R G). cbn [fst snd].
  split.
  - unfold value. rewrite (currentText_selected (E:=Signal) _ it);
      [reflexivity | exact R | exact G | reflexivity].
  - unfold value. cbv [currentData bind self currentIndex ret].
    cbn [fst snd items _currentIndex]. rewrite R. cbn [negb]. rewrite G.
    reflexivity.
Qed.

(** *** The menu and its actions *)

Lemma addActions_trace (l : list (ComboItem Icon UserData)) : forall i w,
  addActions i l w =
    (tt, w, map (fun p => addAction (fst p) (snd p)) (enumerate_texts i l)).
Proof.
  induction l as [|it rest IH]; intros i w; cbn [addActions enumerate_texts map].
  - reflexivity.
  - cbv [bind log]. rewrite IH. reflexivity.
Qed.

Lemma actions_of_addActions (el : list (Z * string)) :
  actions (map (fun p => addAction (fst p) (snd p)) el) = el.
Proof.
  induction el as [|[i t] rest IH]; cbn; [reflexivity|]. now rewrite IH.
Qed.

Lemma actions_app tr1 tr2 : actions (tr1 ++ tr2) = actions tr1 ++ actions tr2.
Proof.
  induction tr1 as [|c tr1 IH]; [reflexivity|].
  destruct c; cbn [app actions]; rewrite IH; reflexivity.
Qed.

(** X22: [_showComboMenu] adds to the menu one action per item, in the
    order of the list, each with the index and the text of its item, and
    it changes neither the list, the current index nor the displayed
    text. On a widget without items it makes no call at all and leaves
    the widget as it is. *)
Theorem _showComboMenu_actions h w :
  actions (events (_showComboMenu h) w) = enumerate_texts 0 (items w) /\
  items (after (_showComboMenu h) w) = items w /\
  _currentIndex (after (_showComboMenu h) w) = _currentIndex w /\
  widgetText (after (_showComboMenu h) w) = widgetText w /\
  (items w = [] ->
     events (_showComboMenu h) w = [] /\ after (_showComboMenu h) w = w).
Proof.
  unfold events, after, _showComboMenu.
  destruct (items w) as [|it rest] eqn:I.
  - cbv [bind self ret]. rewrite I. cbn [fst snd enumerate_texts actions].
    rewrite I. repeat split.
  - cbv [bind self ask_heightForAnimation]. rewrite I.
    rewrite (addActions_trace (it :: rest) 0 w).
    cbv [log ret set_dropMenu currentIndex self bind].
    destruct (menu_view_width h <? width h);
      cbn [_currentIndex items fst snd];
      rewrite I;
      destruct ((_currentIndex w >=? 0) && _);
      try destruct (_currentIndex w >=? 0);
      try destruct (_ >=? _);
      cbn [fst snd app items _currentIndex widgetText];
      rewrite ?actions_app, ?actions_of_addActions, ?app_nil_r, ?I;
      cbn [actions app]; rewrite ?app_nil_r;
      (split; [reflexivity|]; split; [reflexivity|]; split; [reflexivity|];
       split; [reflexivity|]; intros E; discriminate).
Qed.

(** *** Every sequence of calls *)

Lemma extends_refl w : extends w w.
Proof. split; [lia | left; reflexivity]. Qed.

Lemma extends_trans w1 w2 w3 : extends w1 w2 -> extends w2 w3 -> extends w1 w3.
Proof.
  intros [L12 C12] [L23 C23]. split; [lia|].
  destruct C23 as [C23|C23]; [|right; exact C23].
  rewrite C23. destruct C12 as [C12|C12]; [left; exact C12|].
  right. apply PyListFacts.in_range_iff.
  apply PyListFacts.in_range_iff in C12. lia.
Qed.

Lemma extends_index_ok w w' :
  extends w w' -> index_ok w = true -> index_ok w' = true.
Proof.
  intros [L C] Ok. unfold index_ok in *. apply orb_true_iff.
  destruct C as [C|C]; [|right; exact C].
  rewrite C. apply orb_true_iff in Ok. destruct Ok as [Ok|Ok];
    [left; exact Ok|].
  right. apply PyListFacts.in_range_iff.
  apply PyListFacts.in_range_iff in Ok. lia.
Qed.

Lemma extends_index_weak w w' :
  extends w w' ->
  index_ok w = true \/ (items w = [] /\ _currentIndex w = 0) ->
  index_ok w' = true \/ (items w' = [] /\ _currentIndex w' = 0).
Proof.
  intros Ext [Ok|[Emp C0]]; [left; now apply (extends_index_ok w)|].
  destruct Ext as [L [C|C]].
  - destruct (items w') as [|a rest] eqn:I'.
    + right. split; [reflexivity | congruence].
    + left. unfold index_ok. apply orb_true_iff. right.
      apply PyListFacts.in_range_iff. rewrite C, C0, I'.
      unfold PyList.len. cbn [List.length]. lia.
  - left. unfold index_ok. apply orb_true_iff. right. exact C.
Qed.

Lemma setCurrentIndex_extends index w :
  extends w (after (E:=Signal) (setCurrentIndex index) w).
Proof.
  destruct (setCurrentIndex_after (E:=Signal) index w) as [I C].
  split; [rewrite I; lia|]. rewrite I, C.
  destruct (PyList.in_range index (items w)) eqn:R;
    [right; exact R | left; reflexivity].
Qed.

Lemma _onItemClicked_extends index w :
  extends w (after (_onItemClicked index) w).
Proof.
  destruct (_onItemClicked_after index w) as [I C].
  split; [rewrite I; lia|]. rewrite I, C.
  destruct (PyList.in_range index (items w)) eqn:R;
    [right; exact R | left; reflexivity].
Qed.

Lemma with_items_extends w l :
  PyList.len (items w) <= PyList.len l -> extends w (with_items w l).
Proof. intros L. split; [exact L | left; reflexivity]. Qed.

Lemma addItem_extends t ico data w : extends w (after (addItem t ico data) w).
Proof.
  unfold after. rewrite addItem_eq. cbv zeta.
  set (w1 := with_items w _).
  assert (extends w w1) as E1.
  { apply with_items_extends. rewrite PyListFacts.len_app_one. lia. }
  destruct (_ =? 1); [|exact E1].
  exact (extends_trans _ _ _ E1 (setCurrentIndex_extends 0 w1)).
Qed.

Lemma insertItem_extends index t ico data w :
  extends w (after (insertItem index t ico data) w).
Proof.
  unfold after. rewrite insertItem_eq.
  destruct (PyList.insert_accepts index (items w)); [|apply extends_refl].
  cbv zeta. set (w1 := with_items w _).
  assert (extends w w1) as E1.
  { apply with_items_extends. rewrite PyListFacts.len_insert. lia. }
  destruct (index <=? _); [|exact E1].
  exact (extends_trans _ _ _ E1 (_onItemClicked_extends _ w1)).
Qed.

Lemma addItems_extends texts : forall w, extends w (after (addItems texts) w).
Proof.
  induction texts as [|t rest IH]; intros w; cbn [addItems].
  - apply extends_refl.
  - rewrite after_bind.
    exact (extends_trans _ _ _ (addItem_extends t None None w) (IH _)).
Qed.

Lemma insertItems_loop_extends texts : forall pos w,
  extends w (after (insertItems_loop pos texts) w).
Proof.
  induction texts as [|t rest IH]; intros pos w; cbn [insertItems_loop].
  - apply extends_refl.
  - rewrite after_bind. unfold value, after at 2, self. cbn [fst snd].
    unfold PyList.insert.
    destruct (PyList.insert_accepts pos (items w)); [|apply extends_refl].
    rewrite after_bind. unfold after at 2, set_items. cbn [fst snd].
    refine (extends_trans _ _ _ _ (IH _ _)).
    apply (with_items_extends w). rewrite PyListFacts.len_insert. lia.
Qed.

Lemma insertItems_extends index texts w :
  extends w (after (insertItems index texts) w).
Proof.
  unfold after at 1. rewrite insertItems_eq. cbv zeta.
  pose proof (insertItems_loop_extends texts index w) as E1.
  destruct (value (insertItems_loop index texts) w) as [pos|];
    [|exact E1].
  destruct (index <=? _); cbn [fst snd]; [|exact E1].
  exact (extends_trans _ _ _ E1 (_onItemClicked_extends _ _)).
Qed.

Lemma setCurrentText_extends t w :
  extends w (after (E:=Signal) (setCurrentText t) w).
Proof.
  unfold after. rewrite setCurrentText_eq.
  destruct (String.eqb _ _); [apply extends_refl|].
  destruct (_ >=? 0); [apply setCurrentIndex_extends | apply extends_refl].
Qed.

Lemma setItem_extends index t v ico w :
  extends w (after (E:=Signal) (setItemText index t) w) /\
  extends w (after (E:=Signal) (setItemData index v) w) /\
  extends w (after (E:=Signal) (setItemIcon index ico) w).
Proof.
  unfold after. rewrite setItemText_eq.
  cbv [setItemData setItemIcon bind self ret set_items].
  destruct (PyList.in_range index (items w)); cbn [fst snd];
    repeat split; cbn [items _currentIndex];
    unfold PyList.len; rewrite ?update_at_length;
    try lia; left; reflexivity.
Qed.

(** What one call does to a current index that is -1, an index into the
    list, or 0 over an empty list. *)
Lemma invoke_index_weak m w :
  index_ok w = true \/ (items w = [] /\ _currentIndex w = 0) ->
  index_ok (after (invoke m) w) = true \/
  (items (after (invoke m) w) = [] /\ _currentIndex (after (invoke m) w) = 0).
Proof.
  intros Inv.
  destruct m as [t ico data | texts | index t ico data | index texts | index
                 | index | t | index t | index v | index ico | ];
    cbn [invoke].
  - exact (extends_index_weak _ _ (addItem_extends t ico data w) Inv).
  - exact (extends_index_weak _ _ (addItems_extends texts w) Inv).
  - rewrite after_then_ret.
    exact (extends_index_weak _ _ (insertItem_extends index t ico data w) Inv).
  - rewrite after_then_ret.
    exact (extends_index_weak _ _ (insertItems_extends index texts w) Inv).
  - exact (apply_op_index (OpRemoveItem index) w Inv).
  - exact (extends_index_weak _ _ (setCurrentIndex_extends index w) Inv).
  - exact (extends_index_weak _ _ (setCurrentText_extends t w) Inv).
  - exact (extends_index_weak _ _
             (proj1 (setItem_extends index t None None w)) Inv).
  - exact (extends_index_weak _ _
             (proj1 (proj2 (setItem_extends index EmptyString v None w))) Inv).
  - exact (extends_index_weak _ _
             (proj2 (proj2 (setItem_extends index EmptyString None ico w)))
             Inv).
  - left. unfold index_ok. rewrite (proj2 (clear_resets w)). reflexivity.
Qed.

(** X25: after any sequence of calls to [addItem], [addItems],
    [insertItem], [insertItems], [removeItem], [setCurrentIndex],
    [setCurrentText], [setItemText], [setItemData], [setItemIcon] and
    [clear] on a fresh widget, the current index is -1 or an index into
    the list, or else it is 0 and the list is empty. *)
Theorem invoke_all_index_from_init ms c :
  index_ok (after (invoke_all ms) (@init Icon UserData c)) = true \/
  (items (after (invoke_all ms) (@init Icon UserData c)) = [] /\
   _currentIndex (after (invoke_all ms) (@init Icon UserData c)) = 0).
Proof.
  assert (forall w,
            index_ok w = true \/ (items w = [] /\ _currentIndex w = 0) ->
            index_ok (after (invoke_all ms) w) = true \/
            (items (after (invoke_all ms) w) = [] /\
             _currentIndex (after (invoke_all ms) w) = 0)) as Gen.
  { induction ms as [|m rest IH]; intros w Inv; [exact Inv|].
    cbn [invoke_all]. rewrite after_bind. apply IH.
    now apply invoke_index_weak. }
  apply Gen. left. reflexivity.
Qed.

(** X26: a sequence of calls to those methods without any [removeItem],
    on a widget whose current index is -1 or an index into the list,
    leaves a current index that is -1 or an index into the list. *)
Theorem invoke_all_index_ok ms : forall w,
  index_ok w = true ->
  forallb (fun m => negb (is_removeItem m)) ms = true ->
  index_ok (after (invoke_all ms) w) = true.
Proof.
  induction ms as [|m rest IH]; intros w Ok NoRemove; [exact Ok|].
  cbn [forallb] in NoRemove. apply andb_true_iff in NoRemove.
  destruct NoRemove as [Nm Nrest].
  cbn [invoke_all]. rewrite after_bind. apply IH; [|exact Nrest].
  destruct m as [t ico data | texts | index t ico data | index texts | index
                 | index | t | index t | index v | index ico | ];
    cbn [invoke]; cbn [is_removeItem negb] in Nm; try discriminate.
  - exact (extends_index_ok _ _ (addItem_extends t ico data w) Ok).
  - exact (extends_index_ok _ _ (addItems_extends texts w) Ok).
  - rewrite after_then_ret.
    exact (extends_index_ok _ _ (insertItem_extends index t ico data w) Ok).
  - rewrite after_then_ret.
    exact (extends_index_ok _ _ (insertItems_extends index texts w) Ok).
  - exact (extends_index_ok _ _ (setCurrentIndex_extends index w) Ok).
  - exact (extends_index_ok _ _ (setCurrentText_extends t w) Ok).
  - exact (extends_index_ok _ _
             (proj1 (setItem_extends index t None None w)) Ok).
  - exact (extends_index_ok _ _
             (proj1 (proj2 (setItem_extends index EmptyString v None w))) Ok).
  - exact (extends_index_ok _ _
             (proj2 (proj2 (setItem_extends index EmptyString None ico w)))
             Ok).
  - unfold index_ok. rewrite (proj2 (clear_resets w)). reflexivity.
Qed.

End ListProperties.

(** ** Properties of the buttons *)

(** X23: [DropDownButtonBase._showMenu] does nothing when no menu is set.
    With a menu it asks the oracle about drop-down at the bottom-edge
    point and about pull-up at the top-edge point, and it opens the menu
    once, at one of the two points it asked about and in the direction it
    asked about there: drop-down exactly when the height reported for
    drop-down is at least the height reported for pull-up. *)
Theorem button_showMenu_opens_where_asked h :
  Button._showMenu h false = [] /\
  Button.queries (Button._showMenu h true) =
    [(pd_of h, DROP_DOWN); (pu_of h, PULL_UP)] /\
  exists pos aniType,
    Button.executed (Button._showMenu h true) = [(pos, aniType)] /\
    In (pos, aniType) (Button.queries (Button._showMenu h true)) /\
    (aniType = DROP_DOWN <->
     heightForAnimation h (pd_of h) DROP_DOWN >=
     heightForAnimation h (pu_of h) PULL_UP).
Proof.
  split; [reflexivity|].
  unfold Button._showMenu, pd_of, pu_of, anchor_x. cbn [negb app].
  cbv zeta.
  destruct (_ >=? _) eqn:G; cbn [Button.queries Button.executed];
    rewrite Z.geb_leb in G.
  - apply Z.leb_le in G. split; [reflexivity|].
    eexists _, DROP_DOWN. split; [reflexivity|]. split; [left; reflexivity|].
    split; [intros _; lia | reflexivity].
  - apply Z.leb_gt in G. split; [reflexivity|].
    eexists _, PULL_UP. split; [reflexivity|].
    split; [right; left; reflexivity|].
    split; [discriminate | intros Ge; lia].
Qed.

(** X24: the horizontal anchor that the combo box and the buttons
    compute puts the middle of the menu, without its left margin, on the
    middle of the widget, to the pixel or one pixel to the left of it:
    twice the distance between them is 0, -1 or -2. *)
Theorem anchor_x_centred h :
  -2 <= 2 * (anchor_x h - contentsMargins_left h) + menu_width h - width h
     <= 0.
Proof.
  unfold anchor_x.
  pose proof (Z.div_mod (- menu_width h) 2 ltac:(lia)) as M.
  pose proof (Z.mod_pos_bound (- menu_width h) 2 ltac:(lia)) as MB.
  pose proof (Z.div_mod (width h) 2 ltac:(lia)) as W.
  pose proof (Z.mod_pos_bound (width h) 2 ltac:(lia)) as WB.
  lia.
Qed.


(** ** The further theorems at concrete widgets *)

Section ConcreteMore.
Import Examples.
Local Open Scope string_scope.

Lemma insertItem_keeps_selected_item_witness :
  item_at box_AB (_currentIndex box_AB) = Some (item "B") /\
  0 <= 0 <= _currentIndex box_AB /\
  _currentIndex (after (insertItem 0 "Z" None None) box_AB) = 2 /\
  item_at (after (insertItem 0 "Z" None None) box_AB) 2 = Some (item "B") /\
  widgetText (after (insertItem 0 "Z" None None) box_AB) = "B" /\
  emitted (insertItem 0 "Z" None None) box_AB =
    [currentTextChanged "B"; currentIndexChanged 2].
Proof.
  assert (0 <= 0 <= _currentIndex box_AB) as H by (cbn; lia).
  split; [reflexivity|]. split; [exact H|].
  exact (insertItem_keeps_selected_item 0 "Z" None None box_AB (item "B")
           eq_refl H).
Defined.

Lemma insertItem_negative_moves_selection_witness :
  PyList.in_range 0 (items (box ["A"; "B"] 0 "A")) = true /\
  -1 < 0 /\
  0 < Z.of_nat (PyList.insert_pos (-1) (items (box ["A"; "B"] 0 "A"))) /\
  items (after (insertItem (-1) "Z" None None) (box ["A"; "B"] 0 "A")) =
    [item "A"; item "Z"; item "B"] /\
  _currentIndex (after (insertItem (-1) "Z" None None) (box ["A"; "B"] 0 "A"))
    = 1 /\
  item_at (after (insertItem (-1) "Z" None None) (box ["A"; "B"] 0 "A")) 1 =
    Some (item "Z").
Proof.
  assert (-1 < 0) as Neg by lia.
  assert (0 < Z.of_nat (PyList.insert_pos (-1)
                          (items (box ["A"; "B"] 0 "A")))) as After
    by (cbn; lia).
  split; [reflexivity|]. split; [exact Neg|]. split; [exact After|].
  split; [reflexivity|].
  destruct (insertItem_negative_moves_selection (-1) "Z" None None
              (box ["A"; "B"] 0 "A") eq_refl Neg After) as (C & _ & At).
  split; [exact C | exact At].
Defined.

Lemma removeItem_before_selection_witness :
  item_at box_ABC (_currentIndex box_ABC) = Some (item "B") /\
  0 <= 0 < _currentIndex box_ABC /\
  _currentIndex (after (removeItem 0) box_ABC) = 0 /\
  item_at (after (removeItem 0) box_ABC) 0 = Some (item "B") /\
  widgetText (after (removeItem 0) box_ABC) = "B" /\
  emitted (removeItem 0) box_ABC =
    [currentTextChanged "B"; currentIndexChanged 0].
Proof.
  assert (0 <= 0 < _currentIndex box_ABC) as H by (cbn; lia).
  split; [reflexivity|]. split; [exact H|].
  exact (removeItem_before_selection 0 box_ABC (item "B") eq_refl H).
Defined.

Lemma removeItem_after_selection_witness :
  PyList.in_range 2 (items box_ABC) = true /\
  _currentIndex box_ABC < 2 /\
  _currentIndex (after (removeItem 2) box_ABC) = 1 /\
  item_at (after (removeItem 2) box_ABC) 1 = Some (item "B") /\
  widgetText (after (removeItem 2) box_ABC) = "B" /\
  emitted (removeItem 2) box_ABC = [].
Proof.
  assert (_currentIndex box_ABC < 2) as H by (cbn; lia).
  split; [reflexivity|]. split; [exact H|].
  exact (removeItem_after_selection 2 box_ABC eq_refl H).
Defined.

Lemma removeItem_index_ok_iff_witness :
  index_ok box_A = true /\
  index_ok (after (removeItem 0) box_A) = false /\
  index_ok box_AB = true /\
  index_ok (after (removeItem 1) box_AB) <> false.
Proof.
  split; [reflexivity|]. split; [|split; [reflexivity|]].
  - apply (proj2 (removeItem_index_ok_iff 0 box_A eq_refl)).
    repeat split.
  - intros Bad.
    destruct (proj1 (removeItem_index_ok_iff 1 box_AB eq_refl) Bad) as [E _].
    discriminate E.
Defined.

Lemma findText_of_itemText_witness :
  item_at (box ["A"; "B"; "A"] 2 "A") 2 = Some (item "A") /\
  value (E:=Signal) (findText "A") (box ["A"; "B"; "A"] 2 "A") = 0 /\
  value (E:=Signal) (itemText 0) (box ["A"; "B"; "A"] 2 "A") = "A".
Proof.
  split; [reflexivity|]. split; [reflexivity|].
  exact (proj2 (findText_of_itemText 2 (box ["A"; "B"; "A"] 2 "A") (item "A")
                  eq_refl)).
Defined.

Lemma insertItems_content_witness :
  0 <= 1 /\ 1 + PyList.len ["X"; "Y"] <= 2 ^ 63 /\
  value (insertItems 1 ["X"; "Y"]) box_AB = Completed /\
  items (after (insertItems 1 ["X"; "Y"]) box_AB) =
    [item "A"; item "X"; item "Y"; item "B"].
Proof.
  assert (0 <= 1) as P by discriminate.
  assert (1 + PyList.len ["X"; "Y"] <= 2 ^ 63) as Fit by discriminate.
  split; [exact P|]. split; [exact Fit|].
  exact (insertItems_content 1 ["X"; "Y"] box_AB P Fit).
Defined.

Lemma insertItem_lookup_witness :
  (- 2 ^ 63 <= 1 < 2 ^ 63 /\
   value (insertItem 1 "Z" None None) box_AB = Completed /\
   value (E:=Signal) count (after (insertItem 1 "Z" None None) box_AB) = 3 /\
   item_at (after (insertItem 1 "Z" None None) box_AB) 1 = Some (item "Z")) /\
  (~ (- 2 ^ 63 <= 2 ^ 63 < 2 ^ 63) /\
   PyList.len (items box_AB) <= PyList.PY_SSIZE_T_MAX /\
   insertItem (2 ^ 63) "Z" None None box_AB =
     (Raised_OverflowError, box_AB, [])).
Proof.
  split.
  - assert (- 2 ^ 63 <= 1 < 2 ^ 63) as Fits
      by (split; [discriminate | reflexivity]).
    split; [exact Fits|].
    destruct (proj1 (insertItem_lookup 1 "Z" None None box_AB) Fits)
      as (Done & Count & At & _).
    split; [exact Done|]. split; [exact Count | exact At].
  - assert (~ (- 2 ^ 63 <= 2 ^ 63 < 2 ^ 63)) as Out
      by (intros [_ Lt]; discriminate Lt).
    assert (PyList.len (items box_AB) <= PyList.PY_SSIZE_T_MAX) as L
      by discriminate.
    split; [exact Out|]. split; [exact L|].
    exact (proj2 (insertItem_lookup (2 ^ 63) "Z" None None box_AB) Out L).
Defined.

Lemma insertItems_keeps_selected_item_witness :
  item_at box_AB (_currentIndex box_AB) = Some (item "B") /\
  0 <= 0 <= _currentIndex box_AB /\
  _currentIndex (after (insertItems 0 ["X"; "Y"]) box_AB) = 3 /\
  item_at (after (insertItems 0 ["X"; "Y"]) box_AB) 3 = Some (item "B") /\
  emitted (insertItems 0 ["X"; "Y"]) box_AB =
    [currentTextChanged "B"; currentIndexChanged 3].
Proof.
  assert (0 <= 0 <= _currentIndex box_AB) as H by (cbn; lia).
  split; [reflexivity|]. split; [exact H|].
  exact (insertItems_keeps_selected_item 0 ["X"; "Y"] box_AB (item "B")
           eq_refl H).
Defined.

Lemma setCurrentIndex_then_current_witness :
  item_at box_ABC 2 = Some (item "C") /\
  value (E:=Signal) currentText
    (after (E:=Signal) (setCurrentIndex 2) box_ABC) = "C" /\
  value (E:=Signal) currentData
    (after (E:=Signal) (setCurrentIndex 2) box_ABC) = None.
Proof.
  split; [reflexivity|].
  exact (setCurrentIndex_then_current 2 box_ABC (item "C") eq_refl).
Defined.

Lemma invoke_all_index_ok_witness :
  index_ok box_AB = true /\
  forallb (fun m : Method unit unit => negb (is_removeItem m))
    [InsertItem (-1) "Z" None None; AddItems ["X"; "Y"];
     SetCurrentText "Y"; SetItemText 0 "W"; InsertItems 0 ["U"]] = true /\
  index_ok
    (after
       (invoke_all
          [InsertItem (-1) "Z" None None; AddItems ["X"; "Y"];
           SetCurrentText "Y"; SetItemText 0 "W"; InsertItems 0 ["U"]])
       box_AB) = true.
Proof.
  split; [reflexivity|]. split; [reflexivity|].
  exact (invoke_all_index_ok
           [InsertItem (-1) "Z" None None; AddItems ["X"; "Y"];
            SetCurrentText "Y"; SetItemText 0 "W"; InsertItems 0 ["U"]]
           box_AB eq_refl eq_refl).
Defined.

End ConcreteMore.
